(** * ECG verification pushdown automaton: [src/pda/automaton.py]

    A shallow embedding of the class [ECGPDA] and the properties of its
    transition table, of [step], [accepts], [get_max_stack_depth] and
    [compute_vcs].

    Conventions of the embedding:
    - a Python [str] is the list of its code points ([pystr]);
    - a Python list used as a stack keeps its order: index 0 first, the
      top of the stack is the LAST element ([self.stack[-1]]);
    - the dict [self.delta] is an insertion-ordered association list with
      the assignment [d[k] = v] written [dict_set];
    - methods that mutate [self] take the configuration and return it next
      to their result. *)

From Stdlib Require Import List Bool NArith ZArith QArith Qminmax Lia.
From Stdlib Require Import String Ascii.
From Stdlib Require Import PrimFloat Uint63.
Import ListNotations.

(** ** Python strings *)

Module PyStr.

Definition pystr := list N.

(** An ASCII literal of the source as a [pystr]. *)
Definition str (s : string) : pystr :=
  List.map N_of_ascii (list_ascii_of_string s).

Definition eqb (a b : pystr) : bool :=
  if list_eq_dec N.eq_dec a b then true else false.

(** The characters [str.split()] treats as separators (those for which
    [str.isspace] holds). *)
Definition is_space (c : N) : bool :=
  ((9 <=? c) && (c <=? 13) || (28 <=? c) && (c <=? 32)
   || (c =? 133) || (c =? 160) || (c =? 5760)
   || (8192 <=? c) && (c <=? 8202)
   || (c =? 8232) || (c =? 8233) || (c =? 8239) || (c =? 8287)
   || (c =? 12288))%N.

(** [s.split()]: the maximal runs of non-separator characters, in order.
    [cur] holds the characters of the token being read, last one first. *)
Fixpoint split_from (cur : pystr) (s : pystr) : list pystr :=
  match s with
  | [] => match cur with [] => [] | _ => [rev cur] end
  | c :: rest =>
      if is_space c then
        match cur with
        | [] => split_from [] rest
        | _ => rev cur :: split_from [] rest
        end
      else split_from (c :: cur) rest
  end.

Definition split (s : pystr) : list pystr := split_from [] s.

(** [l.count(x)] *)
Definition count (x : pystr) (l : list pystr) : nat :=
  List.length (List.filter (eqb x) l).

End PyStr.

Import PyStr.

(** ** The automaton's alphabets *)

Inductive State := q0 | q1 | q2 | q3 | q4 | q5 | q6.

Inductive StackSym := Z0 | Rm | Lm | Fm | Vm.

Definition State_eq_dec (a b : State) : {a = b} + {a <> b}.
Proof. decide equality. Defined.

Definition StackSym_eq_dec (a b : StackSym) : {a = b} + {a <> b}.
Proof. decide equality. Defined.

Definition State_eqb (a b : State) : bool :=
  if State_eq_dec a b then true else false.

Definition StackSym_eqb (a b : StackSym) : bool :=
  if StackSym_eq_dec a b then true else false.

(** [self.F = {'q6'}] *)
Definition F : list State := [q6].

Definition sigma_leads : list pystr :=
  List.map str ["I"; "II"; "III"; "aR"; "aL"; "aF";
                "V1"; "V2"; "V3"; "V4"; "V5"; "V6"]%string.

Definition sigma_features : list pystr :=
  List.map str ["P"; "Q"; "S"; "T"; "R"]%string.

(** The confirm symbol, U+2713. *)
Definition CHECK : pystr := [10003%N].

(** ** The transition table as a dict *)

Definition key : Type := State * pystr * StackSym.
Definition rule : Type := State * list StackSym.
Definition dict : Type := list (key * rule).

Definition key_eqb (a b : key) : bool :=
  let '(qa, sa, ta) := a in
  let '(qb, sb, tb) := b in
  State_eqb qa qb && PyStr.eqb sa sb && StackSym_eqb ta tb.

(** [d[k] = v]: an existing key keeps its place and takes the new value, a
    new key goes last. *)
Fixpoint dict_set (d : dict) (k : key) (v : rule) : dict :=
  match d with
  | [] => [(k, v)]
  | (k', v') :: d' =>
      if key_eqb k' k then (k', v) :: d' else (k', v') :: dict_set d' k v
  end.

(** [d[k]] when [k in d] *)
Fixpoint dict_get (d : dict) (k : key) : option rule :=
  match d with
  | [] => None
  | (k', v') :: d' => if key_eqb k' k then Some v' else dict_get d' k
  end.

Definition _build_transitions : dict :=
  let delta : dict := [] in
  (* Phase 1: Overview *)
  let delta := dict_set delta (q0, str "O", Z0) (q1, [Z0]) in
  let delta := dict_set delta (q1, str "O", Z0) (q1, [Z0]) in
  (* Phase 2: Rhythm Assessment *)
  let delta := dict_set delta (q1, str "R", Z0) (q2, [Rm; Z0]) in
  let delta := dict_set delta (q2, str "R", Rm) (q2, [Rm]) in
  (* Phase 3: Detailed Examination - Lead level *)
  let delta :=
    fold_left (fun delta lead =>
      let delta := dict_set delta (q2, lead, Rm) (q3, [Lm; Rm]) in
      let delta := dict_set delta (q3, lead, Lm) (q3, [Lm]) in
      dict_set delta (q4, lead, Fm) (q3, [Lm; Rm]))
      sigma_leads delta in
  (* Phase 4: Feature Examination *)
  let delta :=
    fold_left (fun delta feat =>
      let delta := dict_set delta (q3, feat, Lm) (q4, [Fm; Lm]) in
      dict_set delta (q4, feat, Fm) (q4, [Fm]))
      sigma_features delta in
  (* Phase 5: Verification Initiation *)
  let delta := dict_set delta (q4, str "V", Fm) (q5, [Vm; Fm]) in
  let delta := dict_set delta (q3, str "V", Lm) (q5, [Vm; Lm]) in
  (* Phase 6: Verification - Stack Unwinding *)
  let delta := dict_set delta (q5, CHECK, Fm) (q5, []) in
  let delta := dict_set delta (q5, CHECK, Lm) (q5, []) in
  let delta := dict_set delta (q5, CHECK, Vm) (q5, []) in
  let delta := dict_set delta (q5, CHECK, Rm) (q5, [Rm]) in
  (* revisiting leads/features during verification *)
  let delta :=
    fold_left (fun delta lead =>
      let delta := dict_set delta (q5, lead, Vm) (q5, [Vm]) in
      let delta := dict_set delta (q5, lead, Rm) (q5, [Rm]) in
      let delta := dict_set delta (q5, lead, Lm) (q5, [Lm]) in
      dict_set delta (q5, lead, Fm) (q5, [Fm]))
      sigma_leads delta in
  let delta :=
    fold_left (fun delta feat =>
      let delta := dict_set delta (q5, feat, Vm) (q5, [Vm]) in
      let delta := dict_set delta (q5, feat, Fm) (q5, [Fm]) in
      dict_set delta (q5, feat, Lm) (q5, [Lm]))
      sigma_features delta in
  (* Phase 7: Completion *)
  let delta := dict_set delta (q5, str "O", Rm) (q6, [Z0]) in
  let delta := dict_set delta (q5, str "O", Z0) (q6, [Z0]) in
  let delta := dict_set delta (q5, str "O", Lm) (q6, [Z0]) in
  let delta := dict_set delta (q5, str "O", Fm) (q6, [Z0]) in
  delta.

(** [self.delta], built once by the constructor and never assigned again. *)
Definition delta : dict := Eval vm_compute in _build_transitions.

#[global] Opaque delta.

(** ** The engine *)

(** The current configuration: [self.current_state] and [self.stack]. *)
Record config := Config { current_state : State; stack : list StackSym }.

(** The configuration the constructor and [reset] install. *)
Definition initial : config := Config q0 [Z0].

Definition reset (c : config) : config :=
  Config q0 [Z0].

(** The loop [for symbol in reversed(stack_action): self.stack.append(symbol)] *)
Definition push_all (st : list StackSym) (stack_action : list StackSym)
  : list StackSym :=
  fold_left (fun st symbol => st ++ [symbol]) (rev stack_action) st.

Definition step (c : config) (symbol : pystr) : bool * config :=
  match stack c with
  | [] => (false, c)
  | _ :: _ =>
      let stack_top := last (stack c) Z0 in
      match dict_get delta (current_state c, symbol, stack_top) with
      | None => (false, c)
      | Some (new_state, stack_action) =>
          (true,
           Config new_state (push_all (removelast (stack c)) stack_action))
      end
  end.

(** A scanpath argument: a [str], or a list of symbols. *)
Inductive scanpath :=
| Text (s : pystr)
| Symbols (l : list pystr).

(** [scanpath.split() if isinstance(scanpath, str) else scanpath] *)
Definition symbols_of (sp : scanpath) : list pystr :=
  match sp with
  | Text s => split s
  | Symbols l => l
  end.

(** The loop of [accepts] and the acceptance test after it. *)
Fixpoint accepts_loop (c : config) (symbols : list pystr) : bool * config :=
  match symbols with
  | [] =>
      (existsb (State_eqb (current_state c)) F
       && existsb (StackSym_eqb Z0) (stack c), c)
  | symbol :: rest =>
      let (ok, c') := step c symbol in
      if ok then accepts_loop c' rest else (false, c')
  end.

Definition accepts (c : config) (sp : scanpath) : bool * config :=
  accepts_loop (reset c) (symbols_of sp).

Definition get_stack_depth (c : config) : Z :=
  Z.of_nat (List.length (stack c)) - 1.

(** The loop of [get_max_stack_depth]; the result of [step] is dropped. *)
Fixpoint depth_loop (c : config) (max_depth : Z) (symbols : list pystr)
  : Z * config :=
  match symbols with
  | [] => (max_depth, c)
  | symbol :: rest =>
      let c' := snd (step c symbol) in
      let depth := get_stack_depth c' in
      depth_loop c' (Z.max max_depth depth) rest
  end.

Definition get_max_stack_depth (c : config) (sp : scanpath) : Z * config :=
  depth_loop (reset c) 0 (symbols_of sp).

(** [compute_vcs]; the score is the exact rational the float expression
    [min(verification_count / 6.0, 1.0)] denotes. *)
Definition compute_vcs (c : config) (sp : scanpath) : Q * config :=
  let (accepted, c') := accepts c sp in
  if accepted then (1, c')
  else
    let verification_count := count CHECK (symbols_of sp) in
    (Qmin (inject_Z (Z.of_nat verification_count) / 6) 1, c').

(** The fallback expression [min(verification_count / 6.0, 1.0)] of
    [compute_vcs] on binary64 floats: the count converted to a float and
    divided by 6.0, and Python's [min(a, b)], which is [b] when [b < a]
    and [a] otherwise. *)
Definition vcs_fallback_float (verification_count : int) : float :=
  let a := PrimFloat.div (PrimFloat.of_uint63 verification_count) 6%float in
  let b := 1%float in
  if PrimFloat.ltb b a then b else a.

(** ** What a run is

    [replay c l] steps through [l] from [c] and gives the configuration
    reached when every step succeeds; [observed c l] lists the
    configurations seen after each symbol when a failed step is passed
    over. *)

Fixpoint replay (c : config) (l : list pystr) : option config :=
  match l with
  | [] => Some c
  | symbol :: rest =>
      let (ok, c') := step c symbol in
      if ok then replay c' rest else None
  end.

Fixpoint observed (c : config) (l : list pystr) : list config :=
  match l with
  | [] => []
  | symbol :: rest =>
      let c' := if fst (step c symbol) then snd (step c symbol) else c in
      c' :: observed c' rest
  end.

(** The configuration after a sequence of [step] calls whose results are
    not looked at. *)
Definition steps (c : config) (l : list pystr) : config :=
  fold_left (fun c symbol => snd (step c symbol)) l c.

(** The stack has the Bottom symbol as its first (lowest) element. *)
Definition bottomed (st : list StackSym) : Prop :=
  exists above, st = Z0 :: above.

(** The greatest element of a list of depths, [d0] for none. *)
Definition max_of (d0 : Z) (ds : list Z) : Z := fold_left Z.max ds d0.

(** ** Definitions used in the statements *)

(** No key occurs twice in the list. *)
Fixpoint distinct_keys (l : list key) : bool :=
  match l with
  | [] => true
  | k :: rest => negb (existsb (key_eqb k) rest) && distinct_keys rest
  end.

(** The three scanpaths of the demo, "O R II P Q V ✓ ✓ O", "O R II P Q"
    and "O R II P Q V ✓", and the expert pattern of the tests. *)
Definition expert_pattern : pystr :=
  str "O R II P Q V " ++ CHECK ++ str " " ++ CHECK ++ str " O".

Definition novice_pattern : pystr := str "O R II P Q".

Definition partial_pattern : pystr := str "O R II P Q V " ++ CHECK.

Definition tested_expert_pattern : pystr :=
  str "O R II P Q S T V1 P Q V II " ++ CHECK ++ str " V1 " ++ CHECK
  ++ str " O".

(** A rule that reads Z0 on top puts Z0 back first. *)
Definition rule_restores_bottom (e : key * rule) : bool :=
  let '((_, _, top), (_, stack_action)) := e in
  match top with
  | Z0 => match rev stack_action with Z0 :: _ => true | _ => false end
  | _ => true
  end.

(** The depths [get_max_stack_depth] records: one per symbol, taken after
    the step on it, a failed step leaving the configuration as it was. *)
Definition recorded_depths (sp : scanpath) : list Z :=
  List.map get_stack_depth (observed initial (symbols_of sp)).

(** A character that [split] keeps. *)
Definition not_space (c : N) : bool := negb (is_space c).

(** A token: at least one character, none of them a separator. *)
Definition token (t : pystr) : Prop :=
  t <> [] /\ forallb not_space t = true.

(** The text of a list of symbols, a single blank between neighbours. *)
Fixpoint join (l : list pystr) : pystr :=
  match l with
  | [] => []
  | [t] => t
  | t :: rest => t ++ 32%N :: join rest
  end.

(** The state a rule starts from. *)
Definition source_state (e : key * rule) : State := fst (fst (fst e)).

(** [verification_count / 6.0] *)
Definition sixth (n : nat) : Q := inject_Z (Z.of_nat n) / 6.

(** The stack update as the specification words it, the replacement
    sequence appended in its written order. It is not the code's [step];
    it is only compared with it. *)
Definition step_in_written_order (c : config) (symbol : pystr)
  : bool * config :=
  match stack c with
  | [] => (false, c)
  | _ :: _ =>
      match dict_get delta (current_state c, symbol, last (stack c) Z0) with
      | None => (false, c)
      | Some (new_state, stack_action) =>
          (true, Config new_state (removelast (stack c) ++ stack_action))
      end
  end.

(** [replay] with the step function as a parameter. *)
Fixpoint replay_with (f : config -> pystr -> bool * config)
  (c : config) (l : list pystr) : option config :=
  match l with
  | [] => Some c
  | symbol :: rest =>
      let (ok, c') := f c symbol in
      if ok then replay_with f c' rest else None
  end.

(** ** The alphabet and the table seen rule by rule *)

(** [self.sigma_actions] and [self.sigma_verification] *)
Definition sigma_actions : list pystr :=
  List.map str ["O"; "C"; "A"]%string.

Definition sigma_verification : list pystr := [str "V"; CHECK].

(** The parts of a table entry [(state, symbol, stack_top) ->
    (new_state, stack_action)]; [source_state] is the first. *)
Definition input_symbol (e : key * rule) : pystr := snd (fst (fst e)).
Definition top_symbol (e : key * rule) : StackSym := snd (fst e).
Definition next_state (e : key * rule) : State := fst (snd e).
Definition replacement (e : key * rule) : list StackSym := snd (snd e).

(** Some key of the table carries the symbol. *)
Definition has_rule (symbol : pystr) : bool :=
  existsb (fun e => PyStr.eqb (input_symbol e) symbol) delta.

(** The symbols the table has rules for. *)
Definition rule_alphabet : list pystr :=
  sigma_leads ++ sigma_features ++ [str "O"; str "V"; CHECK].

(** The features other than 'R', which is also the rhythm symbol. *)
Definition plain_features : list pystr :=
  List.filter (fun feat => negb (PyStr.eqb feat (str "R"))) sigma_features.

(** Two symbols of one group: two leads, or two features other than 'R'. *)
Definition interchangeable (a b : pystr) : Prop :=
  a = b
  \/ (In a sigma_leads /\ In b sigma_leads)
  \/ (In a plain_features /\ In b plain_features).

Definition rule_eqb (r r' : rule) : bool :=
  State_eqb (fst r) (fst r')
  && if list_eq_dec StackSym_eq_dec (snd r) (snd r') then true else false.

(** What the rules do in a state with a given stack top, whatever the
    symbol read: every [(new_state, stack_action)] some rule has there. *)
Definition allowed (q : State) (top : StackSym) : list rule :=
  match q, top with
  | q0, Z0 => [(q1, [Z0])]
  | q1, Z0 => [(q1, [Z0]); (q2, [Rm; Z0])]
  | q2, Rm => [(q2, [Rm]); (q3, [Lm; Rm])]
  | q3, Lm => [(q3, [Lm]); (q4, [Fm; Lm]); (q5, [Vm; Lm])]
  | q4, Fm => [(q4, [Fm]); (q3, [Lm; Rm]); (q5, [Vm; Fm])]
  | q5, Vm => [(q5, [Vm]); (q5, [])]
  | q5, Rm => [(q5, [Rm]); (q6, [Z0])]
  | q5, Lm => [(q5, [Lm]); (q5, []); (q6, [Z0])]
  | q5, Fm => [(q5, [Fm]); (q5, []); (q6, [Z0])]
  | q5, Z0 => [(q6, [Z0])]
  | _, _ => []
  end.

(** The phase a state belongs to; the lead and the feature state share
    one, the examination. *)
Definition rank (q : State) : nat :=
  match q with
  | q0 => 0 | q1 => 1 | q2 => 2 | q3 => 3 | q4 => 3 | q5 => 4 | q6 => 5
  end.

(** The verification state or the accepting state. *)
Definition verifying (q : State) : bool :=
  match q with q5 | q6 => true | _ => false end.

(** The stack a state goes with in a run from the reset configuration. *)
Definition shape (c : config) : Prop :=
  match current_state c with
  | q0 | q1 => stack c = [Z0]
  | q2 => stack c = [Z0; Rm]
  | q3 => exists mid, stack c = Z0 :: Rm :: mid ++ [Lm] /\ ~ In Z0 mid
  | q4 => exists mid, stack c = Z0 :: Rm :: mid ++ [Fm] /\ ~ In Z0 mid
  | q5 => exists rest, stack c = Z0 :: Rm :: rest /\ ~ In Z0 rest
  | q6 => exists mid, stack c = Z0 :: mid ++ [Z0]
  end.

(** A lead and a feature, [n] times over: "II P II P ...". *)
Fixpoint lead_feature_rounds (n : nat) : list pystr :=
  match n with
  | O => []
  | S n' => str "II" :: str "P" :: lead_feature_rounds n'
  end.

(** The markers [n] further rounds leave below the feature marker. *)
Fixpoint round_markers (n : nat) : list StackSym :=
  match n with
  | O => []
  | S n' => Rm :: Lm :: round_markers n'
  end.

(** ** Equality tests *)

Lemma State_eqb_eq a b : State_eqb a b = true <-> a = b.
Proof.
  unfold State_eqb. destruct (State_eq_dec a b); split; congruence.
Qed.

Lemma StackSym_eqb_eq a b : StackSym_eqb a b = true <-> a = b.
Proof.
  unfold StackSym_eqb. destruct (StackSym_eq_dec a b); split; congruence.
Qed.

Lemma pystr_eqb_eq a b : PyStr.eqb a b = true <-> a = b.
Proof.
  unfold PyStr.eqb. destruct (list_eq_dec N.eq_dec a b); split; congruence.
Qed.

Lemma key_eqb_eq a b : key_eqb a b = true <-> a = b.
Proof.
  destruct a as [[qa sa] ta], b as [[qb sb] tb]. unfold key_eqb.
  rewrite !andb_true_iff, State_eqb_eq, pystr_eqb_eq, StackSym_eqb_eq.
  split; [intros [[-> ->] ->]; reflexivity | intros [= -> -> ->]; auto].
Qed.

Lemma existsb_Z0_In st : existsb (StackSym_eqb Z0) st = true <-> In Z0 st.
Proof.
  rewrite existsb_exists. split.
  - intros [x [Hin Hx]]. apply StackSym_eqb_eq in Hx. now subst.
  - intros Hin. exists Z0. split; [assumption | now apply StackSym_eqb_eq].
Qed.

Lemma in_F_q6 q : existsb (State_eqb q) F = true <-> q = q6.
Proof.
  unfold F. simpl. rewrite orb_false_r. apply State_eqb_eq.
Qed.

(** ** The dict *)

Lemma dict_get_In d k v : dict_get d k = Some v -> In (k, v) d.
Proof.
  induction d as [|[k' v'] d IH]; simpl; [discriminate|].
  destruct (key_eqb k' k) eqn:E.
  - apply key_eqb_eq in E. intros [= ->]. left. now subst.
  - intros H. right. now apply IH.
Qed.

Lemma dict_get_Forall (P : key * rule -> Prop) d k v :
  Forall P d -> dict_get d k = Some v -> P (k, v).
Proof.
  intros HF Hg. rewrite Forall_forall in HF. apply HF.
  now apply dict_get_In.
Qed.

Lemma delta_built : delta = _build_transitions.
Proof. vm_compute. reflexivity. Qed.

(** A property of every rule, checked by running a test over the table. *)
Lemma delta_forallb (t : key * rule -> bool) k v :
  forallb t delta = true -> dict_get delta k = Some v -> t (k, v) = true.
Proof.
  intros Ht Hg. rewrite forallb_forall in Ht. apply Ht.
  now apply dict_get_In.
Qed.

(** ** The stack update *)

Lemma push_all_app st stack_action :
  push_all st stack_action = st ++ rev stack_action.
Proof.
  unfold push_all. generalize (rev stack_action) as l. intros l.
  revert st. induction l as [|a l IH]; intros st; simpl.
  - now rewrite app_nil_r.
  - rewrite IH, <- app_assoc. reflexivity.
Qed.

(** What [step] does, by cases. *)
Lemma step_cases c symbol :
  (fst (step c symbol) = false /\ snd (step c symbol) = c
   /\ (stack c = []
       \/ dict_get delta (current_state c, symbol, last (stack c) Z0) = None))
  \/ (exists new_state stack_action,
        stack c <> []
        /\ dict_get delta (current_state c, symbol, last (stack c) Z0)
           = Some (new_state, stack_action)
        /\ step c symbol
           = (true, Config new_state
                      (removelast (stack c) ++ rev stack_action))).
Proof.
  unfold step. destruct (stack c) as [|a st] eqn:Est.
  - left. auto.
  - destruct (dict_get delta (current_state c, symbol, last (a :: st) Z0))
      as [[new_state stack_action]|] eqn:Eg.
    + right. exists new_state, stack_action. rewrite push_all_app.
      repeat split; congruence.
    + left. auto.
Qed.

Lemma step_failed c symbol :
  fst (step c symbol) = false -> snd (step c symbol) = c.
Proof.
  destruct (step_cases c symbol) as [[_ [H _]]|[q [a [_ [_ H]]]]]; [auto|].
  rewrite H. simpl. discriminate.
Qed.

Lemma step_surj c symbol : step c symbol = (fst (step c symbol), snd (step c symbol)).
Proof. apply surjective_pairing. Qed.

(** ** The transition table *)

Lemma distinct_keys_NoDup l : distinct_keys l = true -> NoDup l.
Proof.
  induction l as [|k l IH]; simpl; intros H; constructor.
  - apply andb_true_iff in H. destruct H as [H _].
    intros Hin. apply negb_true_iff in H.
    assert (existsb (key_eqb k) l = true) as E.
    { apply existsb_exists. exists k. split; [assumption|].
      now apply key_eqb_eq. }
    congruence.
  - apply IH. apply andb_true_iff in H. tauto.
Qed.

(** C8. The table [_build_transitions] returns has 123 rules under 123
    distinct keys (2 + 2 + 12*3 + 5*2 + 2 + 4 + 12*4 + 5*3 + 4), not the
    47 its docstring announces. *)
Theorem build_transitions_has_123_rules :
  List.length _build_transitions = 123%nat
  /\ NoDup (List.map fst _build_transitions)
  /\ List.length _build_transitions <> 47%nat.
Proof.
  split; [vm_compute; reflexivity|]. split.
  - apply distinct_keys_NoDup. vm_compute. reflexivity.
  - vm_compute. discriminate.
Qed.

(** ** Single steps *)

(** A step on a stack written as what lies below the top, and the top. *)
Lemma step_on_top c below top symbol new_state stack_action :
  stack c = below ++ [top] ->
  dict_get delta (current_state c, symbol, top)
  = Some (new_state, stack_action) ->
  step c symbol = (true, Config new_state (below ++ rev stack_action)).
Proof.
  intros Hst Hg.
  destruct (step_cases c symbol) as [[_ [_ [H|H]]]|[q [a [_ [Hg' H]]]]].
  - rewrite Hst in H. now destruct below.
  - rewrite Hst, last_last in H. congruence.
  - rewrite Hst, last_last in Hg'. rewrite Hst, removelast_last in H.
    congruence.
Qed.

Lemma step_no_rule c below top symbol :
  stack c = below ++ [top] ->
  dict_get delta (current_state c, symbol, top) = None ->
  step c symbol = (false, c).
Proof.
  intros Hst Hg.
  destruct (step_cases c symbol) as [[E1 [E2 _]]|[q [a [_ [Hg' _]]]]].
  - rewrite step_surj, E1, E2. reflexivity.
  - rewrite Hst, last_last in Hg'. congruence.
Qed.

(** C2 as stated fails: completing on the stack [Z0; Rm] leaves [Z0; Z0],
    not the one-element stack [Z0]. *)
Lemma completion_does_not_reset_stack :
  ~ (forall below top,
        In top [Rm; Lm; Fm; Z0] ->
        step (Config q5 (below ++ [top])) (str "O")
        = (true, Config q6 [Z0])).
Proof.
  intros H. specialize (H [Z0] Rm).
  assert (In Rm [Rm; Lm; Fm; Z0]) as Hin by (simpl; auto).
  specialize (H Hin). vm_compute in H. discriminate.
Qed.

(** C2, amended. Reading 'O' in q5 with Rm, Lm, Fm or Z0 on top moves to
    q6 and replaces the top symbol alone by Z0: everything below the top
    stays on the stack. *)
Theorem completion_replaces_top (below : list StackSym) (top : StackSym) :
  In top [Rm; Lm; Fm; Z0] ->
  step (Config q5 (below ++ [top])) (str "O")
  = (true, Config q6 (below ++ [Z0])).
Proof.
  intros Hin.
  apply (@step_on_top (Config q5 (below ++ [top])) below top (str "O") q6 [Z0]);
    [reflexivity|].
  simpl in Hin. simpl current_state.
  destruct Hin as [<-|[<-|[<-|[<-|[]]]]]; vm_compute; reflexivity.
Qed.

Lemma completion_replaces_top_witness :
  In Rm [Rm; Lm; Fm; Z0]
  /\ step (Config q5 ([Z0; Rm; Lm] ++ [Rm])) (str "O")
     = (true, Config q6 ([Z0; Rm; Lm] ++ [Z0])).
Proof.
  assert (In Rm [Rm; Lm; Fm; Z0]) as Hin by (simpl; auto).
  split; [exact Hin|].
  exact (@completion_replaces_top [Z0; Rm; Lm] Rm Hin).
Defined.

(** C3 as stated fails: the rule for 'R' in q1 has the replacement
    [Rm; Z0]; pushed in its written order it would leave Z0 on top, the
    code leaves Rm on top. *)
Lemma replacement_not_pushed_in_order :
  ~ (forall c symbol c' new_state stack_action,
        step c symbol = (true, c') ->
        dict_get delta (current_state c, symbol, last (stack c) Z0)
        = Some (new_state, stack_action) ->
        stack c' = removelast (stack c) ++ stack_action).
Proof.
  intros H.
  specialize (H (Config q1 [Z0]) (str "R") (Config q2 [Z0; Rm]) q2 [Rm; Z0]).
  assert (step (Config q1 [Z0]) (str "R") = (true, Config q2 [Z0; Rm])) as E1
    by (vm_compute; reflexivity).
  assert (dict_get delta (q1, str "R", Z0) = Some (q2, [Rm; Z0])) as E2
    by (vm_compute; reflexivity).
  specialize (H E1 E2). vm_compute in H. discriminate.
Qed.

(** With the replacement pushed in its written order the expert pattern of
    the demo and of the tests would stop at its third symbol: the order the
    code uses is the one its table is written for. *)
Lemma written_order_rejects_expert_pattern :
  replay_with step initial (split expert_pattern)
  = Some (Config q6 [Z0; Rm; Z0])
  /\ replay_with step_in_written_order initial (split expert_pattern) = None
  /\ replay_with step_in_written_order initial (split (str "O R"))
     = Some (Config q2 [Rm; Z0]).
Proof. repeat split; vm_compute; reflexivity. Qed.

(** C3, amended. A successful step removes the top symbol and appends the
    rule's replacement sequence from its last element to its first, so the
    FIRST (leftmost) element of the sequence is the new top; with an empty
    sequence the stack is one element shorter. *)
Theorem step_pushes_replacement_reversed
  (c : config) (symbol : pystr) (c' : config) :
  step c symbol = (true, c') ->
  exists new_state stack_action,
    dict_get delta (current_state c, symbol, last (stack c) Z0)
    = Some (new_state, stack_action)
    /\ current_state c' = new_state
    /\ stack c' = removelast (stack c) ++ rev stack_action
    /\ (forall a rest, stack_action = a :: rest ->
          last (stack c') Z0 = a /\ stack c' <> [])
    /\ (stack_action = [] ->
          S (List.length (stack c')) = List.length (stack c)).
Proof.
  intros Hs.
  destruct (step_cases c symbol) as [[E _]|[q [a [Hne [Hg E]]]]].
  - rewrite Hs in E. discriminate.
  - rewrite Hs in E. injection E as ->. exists q, a. simpl.
    split; [assumption|]. split; [reflexivity|]. split; [reflexivity|].
    split.
    + intros x rest ->. simpl. rewrite app_assoc. split.
      * apply last_last.
      * now destruct (removelast (stack c) ++ rev rest).
    + intros ->. simpl. rewrite app_nil_r.
      destruct (exists_last Hne) as [l [x ->]].
      rewrite removelast_last, length_app. simpl. lia.
Qed.

Lemma step_pushes_replacement_reversed_witness :
  exists new_state stack_action,
    dict_get delta (q1, str "R", Z0) = Some (new_state, stack_action)
    /\ current_state (Config q2 [Z0; Rm]) = new_state
    /\ stack (Config q2 [Z0; Rm]) = removelast [Z0] ++ rev stack_action
    /\ (forall a rest, stack_action = a :: rest ->
          last (stack (Config q2 [Z0; Rm])) Z0 = a
          /\ stack (Config q2 [Z0; Rm]) <> [])
    /\ (stack_action = [] ->
          S (List.length (stack (Config q2 [Z0; Rm]))) = List.length [Z0]).
Proof.
  assert (step (Config q1 [Z0]) (str "R") = (true, Config q2 [Z0; Rm])) as E
    by (vm_compute; reflexivity).
  exact (@step_pushes_replacement_reversed
           (Config q1 [Z0]) (str "R") (Config q2 [Z0; Rm]) E).
Defined.

(** ** Revisiting leads and features in the verification state *)

(** The rules the two revisiting loops add, as steps: every lead with Vm,
    Rm, Lm or Fm on top, every feature with Vm, Fm or Lm on top. *)
Lemma revisit_keeps_configuration below top symbol :
  (In symbol sigma_leads /\ In top [Vm; Rm; Lm; Fm])
  \/ (In symbol sigma_features /\ In top [Vm; Fm; Lm]) ->
  step (Config q5 (below ++ [top])) symbol
  = (true, Config q5 (below ++ [top])).
Proof.
  intros H.
  apply (@step_on_top (Config q5 (below ++ [top])) below top symbol q5 [top]);
    [reflexivity|].
  simpl current_state.
  assert (forallb (fun lead =>
            forallb (fun m =>
              match dict_get delta (q5, lead, m) with
              | Some (q5, [m']) => StackSym_eqb m m'
              | _ => false
              end) [Vm; Rm; Lm; Fm]) sigma_leads = true) as HL
    by (vm_compute; reflexivity).
  assert (forallb (fun feat =>
            forallb (fun m =>
              match dict_get delta (q5, feat, m) with
              | Some (q5, [m']) => StackSym_eqb m m'
              | _ => false
              end) [Vm; Fm; Lm]) sigma_features = true) as HF
    by (vm_compute; reflexivity).
  rewrite forallb_forall in HL, HF.
  destruct H as [[Hs Ht]|[Hs Ht]].
  - specialize (HL _ Hs). rewrite forallb_forall in HL. specialize (HL _ Ht).
    destruct (dict_get delta (q5, symbol, top)) as [[[] [|m' []]]|];
      try discriminate.
    apply StackSym_eqb_eq in HL. now subst.
  - specialize (HF _ Hs). rewrite forallb_forall in HF. specialize (HF _ Ht).
    destruct (dict_get delta (q5, symbol, top)) as [[[] [|m' []]]|];
      try discriminate.
    apply StackSym_eqb_eq in HF. now subst.
Qed.

(** C4. The table has no rule for a feature symbol read in q5 with the
    rhythm marker on top: after "O R II V ✓ ✓" the engine is in q5 with
    the stack [Z0; Rm], and the step on the feature 'P' fails there. *)
Theorem feature_on_rhythm_marker_rejected :
  steps initial
    (split (str "O R II V " ++ CHECK ++ str " " ++ CHECK))
  = Config q5 [Z0; Rm]
  /\ In (str "P") sigma_features
  /\ step (Config q5 [Z0; Rm]) (str "P") = (false, Config q5 [Z0; Rm])
  /\ (forall c0,
        fst (accepts c0
               (Text (str "O R II V " ++ CHECK ++ str " " ++ CHECK
                      ++ str " P"))) = false)
  /\ Forall (fun feat => dict_get delta (q5, feat, Rm) = None)
       sigma_features
  /\ Forall (fun lead => dict_get delta (q5, lead, Rm) = Some (q5, [Rm]))
       sigma_leads.
Proof.
  split; [vm_compute; reflexivity|].
  split; [unfold sigma_features; simpl; auto|].
  split; [vm_compute; reflexivity|].
  split; [intros c0; vm_compute; reflexivity|].
  split; apply Forall_forall; intros x Hx.
  - assert (forallb (fun feat =>
              match dict_get delta (q5, feat, Rm) with
              | None => true
              | Some _ => false
              end) sigma_features = true) as E by (vm_compute; reflexivity).
    rewrite forallb_forall in E. specialize (E _ Hx).
    now destruct (dict_get delta (q5, x, Rm)).
  - assert (forallb (fun lead =>
              match dict_get delta (q5, lead, Rm) with
              | Some (q5, [Rm]) => true
              | _ => false
              end) sigma_leads = true) as E by (vm_compute; reflexivity).
    rewrite forallb_forall in E. specialize (E _ Hx).
    now destruct (dict_get delta (q5, x, Rm)) as [[[] [|[] []]]|].
Qed.

(** ** The three scanpaths of the demo *)

(** C5. "O R II P Q V ✓ ✓ O" is accepted; "O R II P Q" and
    "O R II P Q V ✓" are rejected. *)
Theorem demo_scanpaths (c0 : config) :
  fst (accepts c0 (Text expert_pattern)) = true
  /\ fst (accepts c0 (Text novice_pattern)) = false
  /\ fst (accepts c0 (Text partial_pattern)) = false.
Proof.
  repeat split; vm_compute; reflexivity.
Qed.

(** The symbols of the three texts, and where each run ends. *)
Lemma demo_final_configurations (c0 : config) :
  split expert_pattern
  = [str "O"; str "R"; str "II"; str "P"; str "Q"; str "V"; CHECK; CHECK;
     str "O"]
  /\ split novice_pattern = [str "O"; str "R"; str "II"; str "P"; str "Q"]
  /\ split partial_pattern
     = [str "O"; str "R"; str "II"; str "P"; str "Q"; str "V"; CHECK]
  /\ snd (accepts c0 (Text expert_pattern)) = Config q6 [Z0; Rm; Z0]
  /\ snd (accepts c0 (Text novice_pattern)) = Config q4 [Z0; Rm; Lm; Fm]
  /\ snd (accepts c0 (Text partial_pattern)) = Config q5 [Z0; Rm; Lm; Fm].
Proof.
  repeat split; vm_compute; reflexivity.
Qed.

(** The assertions of the repository's tests hold of the embedding. *)
Example repository_tests (c0 : config) :
  fst (accepts c0 (Text tested_expert_pattern)) = true
  /\ snd (accepts c0 (Text tested_expert_pattern))
     = Config q6 [Z0; Rm; Lm; Rm; Z0]
  /\ fst (accepts c0 (Text (str "O R II P Q V1 P"))) = false
  /\ fst (get_max_stack_depth c0 (Text tested_expert_pattern)) = 6%Z
  /\ fst (get_max_stack_depth c0 (Text (str "O R II P"))) = 3%Z
  /\ fst (compute_vcs c0 (Text tested_expert_pattern)) = 1%Q
  /\ (fst (compute_vcs c0 (Text novice_pattern)) == 0)%Q
  /\ steps initial [str "O"; str "R"] = Config q2 [Z0; Rm]
  /\ reset (steps initial [str "O"; str "R"]) = Config q0 [Z0].
Proof.
  repeat split; vm_compute; reflexivity.
Qed.

(** ** The Bottom symbol stays at the bottom *)

Lemma delta_restores_bottom : forallb rule_restores_bottom delta = true.
Proof. vm_compute. reflexivity. Qed.

Lemma step_keeps_bottom c symbol :
  bottomed (stack c) -> bottomed (stack (snd (step c symbol))).
Proof.
  intros [above Hst].
  destruct (step_cases c symbol) as [[_ [E _]]|[q [a [_ [Hg E]]]]].
  - rewrite E. now exists above.
  - rewrite E. simpl. rewrite Hst in *.
    destruct above as [|x above].
    + change (last [Z0] Z0) with Z0 in Hg.
      change (removelast [Z0]) with (@nil StackSym).
      pose proof (delta_forallb rule_restores_bottom _ _ delta_restores_bottom Hg)
        as Hr.
      cbn [rule_restores_bottom] in Hr. cbn [app]. destruct (rev a) as [|[] r]; try discriminate.
      now exists r.
    + simpl. now exists (removelast (x :: above) ++ rev a).
Qed.

Lemma steps_keep_bottom l : forall c,
  bottomed (stack c) -> bottomed (stack (steps c l)).
Proof.
  unfold steps. induction l as [|s l IH]; intros c Hb; simpl.
  - assumption.
  - apply IH. now apply step_keeps_bottom.
Qed.

Lemma initial_bottomed : bottomed (stack initial).
Proof. now exists []. Qed.

(** C9. After Reset and any sequence of Step calls, whatever the symbols
    and whether or not the steps succeed, the stack is not empty and its
    lowest element is Z0: both when the next Step is entered and when it
    returns. *)
Theorem bottom_never_removed (c0 : config) (l : list pystr) :
  let c := steps (reset c0) l in
  stack c <> []
  /\ hd_error (stack c) = Some Z0
  /\ In Z0 (stack c)
  /\ (1 <= List.length (stack c))%nat
  /\ (forall symbol,
        let c' := snd (step c symbol) in
        c' = steps (reset c0) (l ++ [symbol])
        /\ stack c' <> []
        /\ hd_error (stack c') = Some Z0).
Proof.
  cbv zeta.
  destruct (steps_keep_bottom l (reset c0) initial_bottomed) as [above E].
  split; [rewrite E; discriminate|].
  split; [rewrite E; reflexivity|].
  split; [rewrite E; now left|].
  split; [rewrite E; simpl; lia|].
  intros symbol.
  split; [unfold steps; rewrite fold_left_app; reflexivity|].
  assert (bottomed (stack (steps (reset c0) l))) as Hb by now exists above.
  destruct (step_keeps_bottom _ symbol Hb) as [above' E'].
  rewrite E'. split; [discriminate | reflexivity].
Qed.

(** ** Maximum stack depth *)

Local Open Scope Z_scope.

Lemma max_of_ge_start ds : forall d0, d0 <= max_of d0 ds.
Proof.
  unfold max_of. induction ds as [|d ds IH]; intros d0; simpl; [lia|].
  specialize (IH (Z.max d0 d)). lia.
Qed.

Lemma max_of_ge_each ds : forall d0 d, In d ds -> d <= max_of d0 ds.
Proof.
  unfold max_of. induction ds as [|x ds IH]; intros d0 d Hin; simpl.
  - contradiction.
  - destruct Hin as [->|Hin].
    + pose proof (max_of_ge_start ds (Z.max d0 d)) as H.
      unfold max_of in H. lia.
    + now apply IH.
Qed.

Lemma max_of_attained ds : forall d0,
  max_of d0 ds = d0 \/ In (max_of d0 ds) ds.
Proof.
  unfold max_of. induction ds as [|x ds IH]; intros d0; simpl; [auto|].
  destruct (IH (Z.max d0 x)) as [E|Hin]; [|auto].
  rewrite E. destruct (Z.max_spec d0 x) as [[_ ->]|[_ ->]]; auto.
Qed.

Lemma observed_step c symbol :
  (if fst (step c symbol) then snd (step c symbol) else c)
  = snd (step c symbol).
Proof.
  destruct (fst (step c symbol)) eqn:E; [reflexivity|].
  symmetry. now apply step_failed.
Qed.

Lemma depth_loop_observed l : forall c max_depth,
  depth_loop c max_depth l
  = (max_of max_depth (List.map get_stack_depth (observed c l)), steps c l).
Proof.
  induction l as [|s l IH]; intros c m; simpl; [reflexivity|].
  rewrite IH, observed_step. reflexivity.
Qed.

Lemma observed_length l : forall c,
  List.length (observed c l) = List.length l.
Proof.
  induction l as [|s l IH]; intros c; cbn [observed List.length];
    [reflexivity|].
  f_equal. apply IH.
Qed.

Lemma observed_bottomed l : forall c,
  bottomed (stack c) ->
  Forall (fun c' => bottomed (stack c')) (observed c l).
Proof.
  induction l as [|s l IH]; intros c Hb; simpl; constructor;
    rewrite observed_step.
  - now apply step_keeps_bottom.
  - apply IH. now apply step_keeps_bottom.
Qed.

Lemma bottomed_depth c : bottomed (stack c) -> 0 <= get_stack_depth c.
Proof.
  intros [above E]. unfold get_stack_depth. rewrite E.
  change (List.length (Z0 :: above)) with (S (List.length above)). lia.
Qed.

Lemma recorded_depths_nonneg sp d : In d (recorded_depths sp) -> 0 <= d.
Proof.
  unfold recorded_depths. intros Hin. apply in_map_iff in Hin.
  destruct Hin as [c [<- Hc]]. apply bottomed_depth.
  pose proof (@observed_bottomed (symbols_of sp) initial initial_bottomed) as HF.
  rewrite Forall_forall in HF. now apply HF.
Qed.

(** C7. [get_max_stack_depth] resets, steps through every symbol whether
    or not the step succeeds (a failed step changes nothing), records
    [len(stack) - 1] after each and returns the greatest depth recorded;
    the result is never negative and is 0 for an empty scanpath. *)
Theorem max_stack_depth_spec (c0 : config) (sp : scanpath) :
  (forall c symbol, fst (step c symbol) = false -> snd (step c symbol) = c)
  /\ List.length (recorded_depths sp) = List.length (symbols_of sp)
  /\ get_max_stack_depth c0 sp
     = (max_of 0 (recorded_depths sp), steps initial (symbols_of sp))
  /\ (forall d, In d (recorded_depths sp) ->
        0 <= d <= fst (get_max_stack_depth c0 sp))
  /\ (symbols_of sp <> [] ->
        In (fst (get_max_stack_depth c0 sp)) (recorded_depths sp))
  /\ 0 <= fst (get_max_stack_depth c0 sp)
  /\ (symbols_of sp = [] -> fst (get_max_stack_depth c0 sp) = 0).
Proof.
  assert (get_max_stack_depth c0 sp
          = (max_of 0 (recorded_depths sp), steps initial (symbols_of sp)))
    as E by apply depth_loop_observed.
  split; [exact step_failed|].
  split.
  { unfold recorded_depths. rewrite length_map. apply observed_length. }
  split; [exact E|]. rewrite E. simpl fst.
  split; [|split; [|split]].
  - intros d Hin. split; [now apply (@recorded_depths_nonneg sp)|].
    now apply max_of_ge_each.
  - intros Hne. destruct (max_of_attained (recorded_depths sp) 0) as [E0|Hin];
      [|assumption].
    rewrite E0.
    destruct (recorded_depths sp) as [|d ds] eqn:Er.
    + unfold recorded_depths in Er. destruct (symbols_of sp); [congruence|].
      simpl in Er. discriminate.
    + left.
      assert (0 <= d) by (apply (@recorded_depths_nonneg sp); rewrite Er;
                          now left).
      assert (d <= max_of 0 (d :: ds)) by (apply max_of_ge_each; now left).
      lia.
  - apply max_of_ge_start.
  - intros Hnil. unfold recorded_depths. rewrite Hnil. reflexivity.
Qed.

Lemma max_stack_depth_spec_witness :
  symbols_of (Text (str "O R II P Q S T")) <> []
  /\ In (fst (get_max_stack_depth initial (Text (str "O R II P Q S T"))))
       (recorded_depths (Text (str "O R II P Q S T")))
  /\ symbols_of (Text (str "  ")) = []
  /\ fst (get_max_stack_depth initial (Text (str "  "))) = 0.
Proof.
  assert (symbols_of (Text (str "O R II P Q S T")) <> []) as Hne
    by (vm_compute; discriminate).
  assert (symbols_of (Text (str "  ")) = []) as Hnil
    by (vm_compute; reflexivity).
  split; [exact Hne|]. split.
  - exact (proj1 (proj2 (proj2 (proj2 (proj2
             (@max_stack_depth_spec initial (Text (str "O R II P Q S T"))))))) Hne).
  - split; [exact Hnil|].
    exact (proj2 (proj2 (proj2 (proj2 (proj2 (proj2
             (@max_stack_depth_spec initial (Text (str "  ")))))))) Hnil).
Defined.

(** The depths of the demo's fourth scanpath, "O R II P Q S T". *)
Example deep_pattern_depths :
  recorded_depths (Text (str "O R II P Q S T")) = [0; 1; 2; 3; 3; 3; 3]
  /\ fst (get_max_stack_depth initial (Text (str "O R II P Q S T"))) = 3.
Proof. split; vm_compute; reflexivity. Qed.

(** ** Tokenizing *)

Lemma rev_nonempty (A : Type) (a : A) l : rev (a :: l) <> [].
Proof. simpl. now destruct (rev l). Qed.

Lemma split_from_tokens s : forall cur,
  forallb not_space cur = true -> Forall token (split_from cur s).
Proof.
  induction s as [|c s IH]; intros cur Hcur; cbn [split_from].
  - destruct cur as [|a cur]; constructor; [|constructor].
    split; [apply rev_nonempty|].
    rewrite forallb_forall in *. intros x Hx. apply Hcur.
    now apply in_rev.
  - destruct (is_space c) eqn:Ec.
    + destruct cur as [|a cur]; [now apply IH|].
      constructor; [|now apply IH].
      split; [apply rev_nonempty|].
      rewrite forallb_forall in *. intros x Hx. apply Hcur.
      now apply in_rev.
    + apply IH. cbn [forallb]. unfold not_space at 1. now rewrite Ec.
Qed.

Lemma split_from_concat s : forall cur,
  List.concat (split_from cur s) = rev cur ++ filter not_space s.
Proof.
  induction s as [|c s IH]; intros cur; cbn [split_from filter].
  - destruct cur; [reflexivity|]. cbn [List.concat]. reflexivity.
  - unfold not_space at 1. destruct (is_space c) eqn:Ec; cbn [negb].
    + destruct cur as [|a cur].
      * rewrite IH. reflexivity.
      * cbn [List.concat]. rewrite IH. reflexivity.
    + rewrite IH. cbn [rev]. rewrite <- app_assoc. reflexivity.
Qed.

Lemma split_from_separator t : forall cur c rest,
  is_space c = true ->
  split_from cur (t ++ c :: rest) = split_from cur t ++ split_from [] rest.
Proof.
  induction t as [|x t IH]; intros cur c rest Hc.
  - cbn [app split_from]. rewrite Hc. now destruct cur.
  - cbn [app split_from]. destruct (is_space x).
    + destruct cur; rewrite (IH [] c rest Hc); reflexivity.
    + apply IH. exact Hc.
Qed.

Lemma split_from_word w : forall cur,
  forallb not_space w = true ->
  split_from cur w = match w, cur with
                     | [], [] => []
                     | _, _ => [rev cur ++ w]
                     end.
Proof.
  induction w as [|x w IH]; intros cur Hw.
  - cbn [split_from]. destruct cur; [reflexivity|].
    now rewrite app_nil_r.
  - cbn [forallb] in Hw. apply andb_true_iff in Hw. destruct Hw as [Hx Hw].
    unfold not_space in Hx. apply negb_true_iff in Hx.
    cbn [split_from]. rewrite Hx, (IH (x :: cur) Hw).
    cbn [rev]. rewrite <- app_assoc. now destruct w.
Qed.

Lemma split_token t : token t -> split t = [t].
Proof.
  intros [Hne Hns]. unfold split. rewrite (split_from_word t [] Hns).
  now destruct t.
Qed.

Lemma split_append_symbol s symbol :
  token symbol -> split (s ++ str " " ++ symbol) = split s ++ [symbol].
Proof.
  intros Ht. unfold split. change (str " " ++ symbol) with (32%N :: symbol).
  rewrite split_from_separator by reflexivity.
  fold (split symbol). now rewrite (split_token _ Ht).
Qed.

Lemma split_join l : Forall token l -> split (join l) = l.
Proof.
  induction 1 as [|t l Ht Hl IH]; [reflexivity|].
  destruct l as [|t' l].
  - now apply split_token.
  - change (join (t :: t' :: l)) with (t ++ 32%N :: join (t' :: l)).
    unfold split. rewrite split_from_separator by reflexivity.
    fold (split t). fold (split (join (t' :: l))).
    now rewrite (split_token _ Ht), IH.
Qed.

(** ** Acceptance *)

Lemma accepts_loop_replayed l : forall c c',
  replay c l = Some c' ->
  accepts_loop c l
  = (existsb (State_eqb (current_state c')) F
     && existsb (StackSym_eqb Z0) (stack c'), c').
Proof.
  induction l as [|s l IH]; intros c c'; cbn [replay accepts_loop].
  - intros [= ->]. reflexivity.
  - destruct (step c s) as [[] c1]; [apply IH | discriminate].
Qed.

Lemma accepts_loop_stops pre : forall c symbol post c',
  replay c pre = Some c' ->
  fst (step c' symbol) = false ->
  accepts_loop c (pre ++ symbol :: post) = (false, c').
Proof.
  induction pre as [|s pre IH]; intros c symbol post c';
    cbn [replay accepts_loop app].
  - intros [= ->] Hf. rewrite (step_surj c' symbol), Hf.
    now rewrite (step_failed _ _ Hf).
  - destruct (step c s) as [[] c1]; [apply IH | discriminate].
Qed.

Lemma replay_stops l : forall c,
  replay c l = None ->
  exists pre symbol post c',
    l = pre ++ symbol :: post
    /\ replay c pre = Some c'
    /\ fst (step c' symbol) = false.
Proof.
  induction l as [|s l IH]; intros c; cbn [replay]; [discriminate|].
  destruct (step c s) as [[] c1] eqn:Es.
  - intros Hn. destruct (IH c1 Hn) as [pre [x [post [c' [-> [Hr Hf]]]]]].
    exists (s :: pre), x, post, c'. cbn [replay app]. rewrite Es. auto.
  - intros _. exists [], s, l, c. cbn [replay app]. rewrite Es. auto.
Qed.

Lemma accepts_loop_true l c :
  fst (accepts_loop c l) = true ->
  exists c', replay c l = Some c'
             /\ current_state c' = q6 /\ In Z0 (stack c').
Proof.
  intros Ha. destruct (replay c l) as [c'|] eqn:Er.
  - rewrite (accepts_loop_replayed _ _ _ Er) in Ha. cbn [fst] in Ha.
    apply andb_true_iff in Ha. destruct Ha as [H1 H2].
    exists c'. split; [reflexivity|]. split.
    + now apply in_F_q6.
    + now apply existsb_Z0_In.
  - destruct (replay_stops _ _ Er) as [pre [x [post [c' [-> [Hr Hf]]]]]].
    rewrite (accepts_loop_stops _ _ _ post _ Hr Hf) in Ha. discriminate.
Qed.

(** C1. [accepts] starts from the reset configuration whatever the engine
    held, splits a text scanpath at whitespace and replays the symbols in
    order. At the first failing step it returns false with the engine left
    where that step found it; when every step succeeds it returns true
    exactly when the state reached is q6 and Z0 occurs in the stack; so a
    run that does not end in q6 is rejected. *)
Theorem accepts_spec (c0 : config) (sp : scanpath) :
  accepts c0 sp = accepts_loop initial (symbols_of sp)
  /\ (forall s, sp = Text s ->
        symbols_of sp = split s
        /\ Forall token (split s)
        /\ List.concat (split s) = filter not_space s)
  /\ (forall l, Forall token l -> symbols_of (Text (join l)) = l)
  /\ (forall pre symbol post c,
        symbols_of sp = pre ++ symbol :: post ->
        replay initial pre = Some c ->
        fst (step c symbol) = false ->
        accepts c0 sp = (false, c))
  /\ (forall c,
        replay initial (symbols_of sp) = Some c ->
        snd (accepts c0 sp) = c
        /\ (fst (accepts c0 sp) = true
            <-> current_state c = q6 /\ In Z0 (stack c)))
  /\ (replay initial (symbols_of sp) = None ->
        exists pre symbol post c,
          symbols_of sp = pre ++ symbol :: post
          /\ replay initial pre = Some c
          /\ fst (step c symbol) = false)
  /\ (current_state (snd (accepts c0 sp)) <> q6 ->
        fst (accepts c0 sp) = false).
Proof.
  assert (accepts c0 sp = accepts_loop initial (symbols_of sp)) as E
    by reflexivity.
  split; [exact E|]. rewrite E.
  split.
  { intros s ->. split; [reflexivity|]. split.
    - now apply split_from_tokens.
    - apply (split_from_concat s []). }
  split; [intros l Hl; now apply split_join|].
  split.
  { intros pre symbol post c -> Hr Hf. now apply accepts_loop_stops. }
  split.
  { intros c Hr. rewrite (accepts_loop_replayed _ _ _ Hr). cbn [fst snd].
    split; [reflexivity|].
    rewrite andb_true_iff, in_F_q6, existsb_Z0_In. reflexivity. }
  split; [apply replay_stops|].
  intros Hq. destruct (fst (accepts_loop initial (symbols_of sp))) eqn:Ea;
    [|reflexivity].
  destruct (accepts_loop_true _ _ Ea) as [c' [Hr [Hs _]]].
  rewrite (accepts_loop_replayed _ _ _ Hr) in Hq. cbn [snd] in Hq. congruence.
Qed.

Lemma accepts_spec_witness :
  (current_state (snd (accepts initial (Text partial_pattern))) <> q6
   /\ fst (accepts initial (Text partial_pattern)) = false)
  /\ (replay initial (symbols_of (Text expert_pattern))
      = Some (Config q6 [Z0; Rm; Z0])
      /\ snd (accepts initial (Text expert_pattern)) = Config q6 [Z0; Rm; Z0]).
Proof.
  assert (current_state (snd (accepts initial (Text partial_pattern))) <> q6)
    as H1 by (vm_compute; discriminate).
  assert (replay initial (symbols_of (Text expert_pattern))
          = Some (Config q6 [Z0; Rm; Z0])) as H2 by (vm_compute; reflexivity).
  split; split; [exact H1 | | exact H2 |].
  - exact (proj2 (proj2 (proj2 (proj2 (proj2 (proj2
             (@accepts_spec initial (Text partial_pattern))))))) H1).
  - exact (proj1 (proj1 (proj2 (proj2 (proj2 (proj2
             (@accepts_spec initial (Text expert_pattern))))))
             (Config q6 [Z0; Rm; Z0]) H2)).
Defined.

(** ** The accepting state has no way out *)

Lemma delta_sources_not_q6 :
  forallb (fun e => negb (State_eqb (source_state e) q6)) delta = true.
Proof. vm_compute. reflexivity. Qed.

Lemma no_rule_from_q6 symbol top : dict_get delta (q6, symbol, top) = None.
Proof.
  destruct (dict_get delta (q6, symbol, top)) as [v|] eqn:Eg; [|reflexivity].
  pose proof (delta_forallb _ _ _ delta_sources_not_q6 Eg) as H.
  vm_compute in H. discriminate.
Qed.

Lemma step_in_q6 c symbol : current_state c = q6 -> step c symbol = (false, c).
Proof.
  intros Hq.
  destruct (step_cases c symbol) as [[E1 [E2 _]]|[q [a [_ [Hg _]]]]].
  - rewrite step_surj, E1, E2. reflexivity.
  - rewrite Hq, no_rule_from_q6 in Hg. discriminate.
Qed.

Lemma steps_in_q6 l : forall c, current_state c = q6 -> steps c l = c.
Proof.
  unfold steps. induction l as [|s l IH]; intros c Hq; cbn [fold_left].
  - reflexivity.
  - rewrite (step_in_q6 c s Hq). cbn [snd]. now apply IH.
Qed.

Lemma accepts_loop_one_more c l symbol :
  fst (accepts_loop c l) = true ->
  fst (accepts_loop c (l ++ [symbol])) = false.
Proof.
  intros Ha. destruct (accepts_loop_true _ _ Ha) as [c' [Hr [Hq _]]].
  rewrite (accepts_loop_stops l c symbol [] c' Hr); [reflexivity|].
  now rewrite (step_in_q6 c' symbol Hq).
Qed.

(** C10. No rule of the table starts in q6; so in q6 every step fails and
    leaves the configuration as it is, however many are tried, and an
    accepted scanpath with one more symbol appended is rejected. *)
Theorem accepting_state_is_final :
  Forall (fun e => source_state e <> q6) delta
  /\ (forall symbol top, dict_get delta (q6, symbol, top) = None)
  /\ (forall c symbol, current_state c = q6 -> step c symbol = (false, c))
  /\ (forall c l, current_state c = q6 -> steps c l = c)
  /\ (forall c0 l symbol,
        fst (accepts c0 (Symbols l)) = true ->
        fst (accepts c0 (Symbols (l ++ [symbol]))) = false)
  /\ (forall c0 s symbol,
        fst (accepts c0 (Text s)) = true ->
        token symbol ->
        fst (accepts c0 (Text (s ++ str " " ++ symbol))) = false).
Proof.
  split.
  { apply Forall_forall. intros e He.
    pose proof delta_sources_not_q6 as H. rewrite forallb_forall in H.
    specialize (H e He). apply negb_true_iff in H.
    intros Hq. rewrite Hq in H. vm_compute in H. discriminate. }
  split; [exact no_rule_from_q6|].
  split; [exact step_in_q6|].
  split; [intros c l; apply steps_in_q6|].
  split.
  - intros c0 l symbol. apply accepts_loop_one_more.
  - intros c0 s symbol Ha Ht. unfold accepts. cbn [symbols_of].
    rewrite (split_append_symbol s symbol Ht).
    now apply accepts_loop_one_more.
Qed.

Lemma accepting_state_is_final_witness :
  (fst (accepts initial (Text expert_pattern)) = true
   /\ token (str "II")
   /\ fst (accepts initial (Text (expert_pattern ++ str " " ++ str "II")))
      = false)
  /\ (current_state (Config q6 [Z0; Rm; Z0]) = q6
      /\ step (Config q6 [Z0; Rm; Z0]) (str "O")
         = (false, Config q6 [Z0; Rm; Z0])).
Proof.
  assert (fst (accepts initial (Text expert_pattern)) = true) as Ha
    by (vm_compute; reflexivity).
  assert (token (str "II")) as Ht
    by (split; [discriminate | vm_compute; reflexivity]).
  assert (current_state (Config q6 [Z0; Rm; Z0]) = q6) as Hq by reflexivity.
  split; split; [exact Ha | | exact Hq |].
  - split; [exact Ht|].
    exact (proj2 (proj2 (proj2 (proj2 (proj2 accepting_state_is_final))))
             initial expert_pattern (str "II") Ha Ht).
  - exact (proj1 (proj2 (proj2 accepting_state_is_final))
             (Config q6 [Z0; Rm; Z0]) (str "O") Hq).
Defined.

(** ** Verification completeness score *)

Local Open Scope Q_scope.

Lemma sixth_nonneg n : 0 <= sixth n.
Proof. unfold sixth, Qle, Qdiv, Qmult, Qinv, inject_Z. simpl. lia. Qed.

Lemma sixth_mono n m : (n <= m)%nat -> sixth n <= sixth m.
Proof. unfold sixth, Qle, Qdiv, Qmult, Qinv, inject_Z. simpl. lia. Qed.

Lemma sixth_cap n : 1 <= sixth n <-> (6 <= n)%nat.
Proof. unfold sixth, Qle, Qdiv, Qmult, Qinv, inject_Z. simpl. lia. Qed.

Lemma count_is_count_occ x l :
  PyStr.count x l = count_occ (list_eq_dec N.eq_dec) l x.
Proof.
  unfold PyStr.count. induction l as [|y l IH]; [reflexivity|].
  cbn [filter count_occ]. unfold PyStr.eqb at 1.
  destruct (list_eq_dec N.eq_dec x y) as [->|Hn].
  - destruct (list_eq_dec N.eq_dec y y); [|congruence].
    cbn [List.length]. now rewrite IH.
  - destruct (list_eq_dec N.eq_dec y x); [congruence|]. exact IH.
Qed.

Lemma compute_vcs_cases c0 sp :
  fst (compute_vcs c0 sp)
  = if fst (accepts c0 sp) then 1
    else Qmin (sixth (PyStr.count CHECK (symbols_of sp))) 1.
Proof.
  unfold compute_vcs. destruct (accepts c0 sp) as [[] c']; reflexivity.
Qed.

Lemma capped_range n : 0 <= Qmin (sixth n) 1 <= 1.
Proof.
  split.
  - apply Q.min_glb; [apply sixth_nonneg | discriminate].
  - apply Q.le_min_r.
Qed.

Lemma capped_full n : Qmin (sixth n) 1 == 1 <-> (6 <= n)%nat.
Proof.
  rewrite <- sixth_cap. split.
  - intros E. rewrite <- E. apply Q.le_min_l.
  - intros H. now apply Q.min_r.
Qed.

(** C6. The score is 1 for an accepted scanpath; for any other it is
    [min(count / 6, 1)] with [count] the number of '✓' among the
    scanpath's symbols. It lies between 0 and 1, does not decrease when
    the count grows (on scanpaths that are not accepted) and is 1 there
    exactly from 6 occurrences on. *)
Theorem compute_vcs_spec (c0 : config) (sp : scanpath) :
  (fst (accepts c0 sp) = true -> fst (compute_vcs c0 sp) = 1)
  /\ (fst (accepts c0 sp) = false ->
        fst (compute_vcs c0 sp)
        = Qmin (inject_Z (Z.of_nat (PyStr.count CHECK (symbols_of sp))) / 6) 1)
  /\ PyStr.count CHECK (symbols_of sp)
     = count_occ (list_eq_dec N.eq_dec) (symbols_of sp) CHECK
  /\ 0 <= fst (compute_vcs c0 sp) <= 1
  /\ (fst (accepts c0 sp) = false ->
        (fst (compute_vcs c0 sp) == 1
         <-> (6 <= PyStr.count CHECK (symbols_of sp))%nat))
  /\ (forall sp',
        fst (accepts c0 sp) = false ->
        fst (accepts c0 sp') = false ->
        (PyStr.count CHECK (symbols_of sp)
         <= PyStr.count CHECK (symbols_of sp'))%nat ->
        fst (compute_vcs c0 sp) <= fst (compute_vcs c0 sp')).
Proof.
  rewrite compute_vcs_cases.
  split; [intros ->; reflexivity|].
  split; [intros ->; reflexivity|].
  split; [apply count_is_count_occ|].
  split.
  { destruct (fst (accepts c0 sp)); [split; discriminate|].
    apply capped_range. }
  split.
  { intros ->. apply capped_full. }
  intros sp' -> Ha' Hle. rewrite compute_vcs_cases, Ha'.
  apply Q.min_le_compat_r. now apply sixth_mono.
Qed.

Lemma compute_vcs_spec_witness :
  (fst (accepts initial (Text expert_pattern)) = true
   /\ fst (compute_vcs initial (Text expert_pattern)) = 1)
  /\ (fst (accepts initial (Text partial_pattern)) = false
      /\ fst (accepts initial (Symbols [CHECK; CHECK])) = false
      /\ (PyStr.count CHECK (symbols_of (Text partial_pattern))
          <= PyStr.count CHECK (symbols_of (Symbols [CHECK; CHECK])))%nat
      /\ fst (compute_vcs initial (Text partial_pattern))
         <= fst (compute_vcs initial (Symbols [CHECK; CHECK]))).
Proof.
  assert (fst (accepts initial (Text expert_pattern)) = true) as H1
    by (vm_compute; reflexivity).
  assert (fst (accepts initial (Text partial_pattern)) = false) as H2
    by (vm_compute; reflexivity).
  assert (fst (accepts initial (Symbols [CHECK; CHECK])) = false) as H3
    by (vm_compute; reflexivity).
  assert (PyStr.count CHECK (symbols_of (Text partial_pattern))
          <= PyStr.count CHECK (symbols_of (Symbols [CHECK; CHECK])))%nat as H4
    by (vm_compute; lia).
  split; split; [exact H1 | | exact H2 |].
  - exact (proj1 (compute_vcs_spec initial (Text expert_pattern)) H1).
  - split; [exact H3|]. split; [exact H4|].
    exact (proj2 (proj2 (proj2 (proj2 (proj2
             (compute_vcs_spec initial (Text partial_pattern))))))
             (Symbols [CHECK; CHECK]) H2 H3 H4).
Defined.

(** The scores of the demo's scanpaths and of six bare confirmations. *)
Example demo_scores :
  fst (compute_vcs initial (Text expert_pattern)) = 1
  /\ fst (compute_vcs initial (Text novice_pattern)) == 0
  /\ fst (compute_vcs initial (Text partial_pattern)) == 1 # 6
  /\ fst (compute_vcs initial
            (Symbols [CHECK; CHECK; CHECK; CHECK; CHECK])) == 5 # 6
  /\ fst (compute_vcs initial
            (Symbols [CHECK; CHECK; CHECK; CHECK; CHECK; CHECK])) == 1.
Proof. repeat split; vm_compute; reflexivity. Qed.

(** The fallback score on floats at the counts 0 to 7 and 100: below 1.0 up
    to five confirmations, exactly 1.0 from six on, never decreasing. *)
Example vcs_fallback_float_values :
  List.map (fun n => PrimFloat.eqb (vcs_fallback_float n) 1%float)
    [0; 1; 2; 3; 4; 5; 6; 7; 100]%uint63
  = [false; false; false; false; false; false; true; true; true]
  /\ List.map (fun n => PrimFloat.leb (vcs_fallback_float n)
                          (vcs_fallback_float (n + 1)%uint63))
       [0; 1; 2; 3; 4; 5; 6; 7]%uint63
     = [true; true; true; true; true; true; true; true]
  /\ vcs_fallback_float 0%uint63 = 0%float
  /\ vcs_fallback_float 6%uint63 = 1%float.
Proof. repeat split; vm_compute; reflexivity. Qed.

(** ** Rules behind successful steps *)

Local Open Scope Z_scope.

Lemma delta_In_forallb (t : key * rule -> bool) e :
  forallb t delta = true -> In e delta -> t e = true.
Proof. intros Ht He. rewrite forallb_forall in Ht. now apply Ht. Qed.

Lemma rule_eqb_eq r r' : rule_eqb r r' = true <-> r = r'.
Proof.
  destruct r as [q a], r' as [q' a']. unfold rule_eqb. cbn [fst snd].
  rewrite andb_true_iff, State_eqb_eq.
  destruct (list_eq_dec StackSym_eq_dec a a'); split.
  - intros [-> _]. now subst.
  - intros [= -> _]. auto.
  - intros [_ H]. discriminate.
  - intros [= _ H]. contradiction.
Qed.

Lemma delta_within_allowed :
  forallb (fun e => existsb (rule_eqb (snd e))
                      (allowed (source_state e) (top_symbol e))) delta
  = true.
Proof. vm_compute. reflexivity. Qed.

(** Every result [allowed] lists is the result of some rule. *)
Lemma allowed_attained :
  forallb (fun q =>
    forallb (fun top =>
      forallb (fun r =>
        existsb (fun e =>
          State_eqb (source_state e) q && StackSym_eqb (top_symbol e) top
          && rule_eqb (snd e) r) delta)
        (allowed q top))
      [Z0; Rm; Lm; Fm; Vm])
    [q0; q1; q2; q3; q4; q5; q6] = true.
Proof. vm_compute. reflexivity. Qed.

(** A successful step, with the rule it took and the stack split at its
    top. *)
Lemma step_true_rule c symbol c' :
  step c symbol = (true, c') ->
  exists below top new_state stack_action,
    stack c = below ++ [top]
    /\ In ((current_state c, symbol, top), (new_state, stack_action)) delta
    /\ In (new_state, stack_action) (allowed (current_state c) top)
    /\ c' = Config new_state (below ++ rev stack_action).
Proof.
  intros Hs.
  destruct (step_cases c symbol) as [[E _]|[q [a [Hne [Hg E]]]]].
  - rewrite Hs in E. discriminate.
  - destruct (exists_last Hne) as [below [top Est]].
    rewrite Est, last_last in Hg. rewrite Est, removelast_last in E.
    exists below, top, q, a. split; [assumption|].
    pose proof (dict_get_In _ _ _ Hg) as Hin.
    split; [assumption|]. split; [|congruence].
    pose proof (delta_In_forallb _ _ delta_within_allowed Hin) as Ha.
    cbn [snd] in Ha. apply existsb_exists in Ha.
    destruct Ha as [r [Hr Er]]. apply rule_eqb_eq in Er. now subst.
Qed.

Lemma step_result c symbol :
  step c symbol = (false, c)
  \/ exists c', step c symbol = (true, c').
Proof.
  destruct (step c symbol) as [[] c'] eqn:E.
  - right. now exists c'.
  - left. f_equal. pose proof (step_failed c symbol) as H.
    rewrite E in H. now apply H.
Qed.

Lemma replay_steps l : forall c c', replay c l = Some c' -> steps c l = c'.
Proof.
  unfold steps. induction l as [|s l IH]; intros c c'; cbn [replay fold_left].
  - now intros [= ->].
  - destruct (step c s) as [[] c1] eqn:E; [|discriminate].
    cbn [snd]. apply IH.
Qed.

Lemma replay_app l1 : forall l2 c c',
  replay c (l1 ++ l2) = Some c' <->
  exists c1, replay c l1 = Some c1 /\ replay c1 l2 = Some c'.
Proof.
  induction l1 as [|s l1 IH]; intros l2 c c'; cbn [app replay].
  - split.
    + intros H. now exists c.
    + intros [c1 [[= ->] H]]. exact H.
  - destruct (step c s) as [[] c1]; [apply IH|].
    split; [discriminate | intros [c2 [H _]]; discriminate].
Qed.

(** A property every successful step keeps holds along runs. *)
Lemma steps_invariant (P : config -> Prop) :
  (forall c symbol c', P c -> step c symbol = (true, c') -> P c') ->
  forall l c, P c -> P (steps c l).
Proof.
  intros Hstep. unfold steps.
  induction l as [|s l IH]; intros c Hc; cbn [fold_left]; [assumption|].
  apply IH. destruct (step_result c s) as [E|[c' E]]; rewrite E; cbn [snd].
  - assumption.
  - now apply (Hstep c s).
Qed.

(** ** Symbols without a rule *)

Lemma has_rule_alphabet symbol :
  has_rule symbol = true <-> In symbol rule_alphabet.
Proof.
  split.
  - unfold has_rule. intros H. apply existsb_exists in H.
    destruct H as [e [He Ee]]. apply pystr_eqb_eq in Ee. subst symbol.
    assert (forallb (fun e => existsb (PyStr.eqb (input_symbol e))
                                rule_alphabet) delta = true) as Hall
      by (vm_compute; reflexivity).
    pose proof (delta_In_forallb _ _ Hall He) as H.
    apply existsb_exists in H. destruct H as [x [Hx Ex]].
    apply pystr_eqb_eq in Ex. now subst.
  - intros Hin.
    assert (forallb has_rule rule_alphabet = true) as Hall
      by (vm_compute; reflexivity).
    rewrite forallb_forall in Hall. now apply Hall.
Qed.

Lemma step_without_rule symbol :
  has_rule symbol = false -> forall c, step c symbol = (false, c).
Proof.
  intros Hn c. destruct (step_result c symbol) as [E|[c' E]]; [exact E|].
  destruct (step_true_rule _ _ _ E) as [below [top [q [a [_ [Hin _]]]]]].
  assert (has_rule symbol = true) as Ht.
  { unfold has_rule. apply existsb_exists.
    exists ((current_state c, symbol, top), (q, a)).
    split; [assumption|]. now apply pystr_eqb_eq. }
  congruence.
Qed.

Lemma accepts_loop_without_rule symbol l :
  has_rule symbol = false -> In symbol l ->
  forall c, fst (accepts_loop c l) = false.
Proof.
  intros Hn. induction l as [|s l IH]; intros Hin c; [contradiction|].
  cbn [accepts_loop]. destruct Hin as [->|Hin].
  - now rewrite (step_without_rule symbol Hn c).
  - destruct (step c s) as [[] c1]; [now apply IH | reflexivity].
Qed.

(** X1. The table has rules for the twelve leads, the five features and
    'O', 'V', '✓' only. A step on any other symbol (the declared actions
    'C' and 'A' among them) fails in every configuration and changes
    nothing, and a scanpath that contains one is rejected. *)
Theorem symbol_without_rule_rejected (symbol : pystr) :
  has_rule symbol = false ->
  ~ In symbol rule_alphabet
  /\ (forall c, step c symbol = (false, c))
  /\ (forall c0 sp, In symbol (symbols_of sp) -> fst (accepts c0 sp) = false)
  /\ In (str "C") sigma_actions /\ has_rule (str "C") = false
  /\ In (str "A") sigma_actions /\ has_rule (str "A") = false.
Proof.
  intros Hn. split.
  { intros Hin. apply has_rule_alphabet in Hin. congruence. }
  split; [now apply step_without_rule|].
  split.
  { intros c0 sp Hin. unfold accepts.
    now apply (accepts_loop_without_rule symbol). }
  repeat split; try (vm_compute; reflexivity);
    unfold sigma_actions; simpl; auto.
Qed.

Lemma symbol_without_rule_rejected_witness :
  has_rule (str "C") = false
  /\ step (Config q5 [Z0; Rm; Lm]) (str "C")
     = (false, Config q5 [Z0; Rm; Lm])
  /\ fst (accepts initial (Symbols [str "O"; str "C"; str "R"])) = false.
Proof.
  assert (has_rule (str "C") = false) as Hn by (vm_compute; reflexivity).
  assert (In (str "C") (symbols_of (Symbols [str "O"; str "C"; str "R"])))
    as Hin by (simpl; auto).
  split; [exact Hn|]. split.
  - exact (proj1 (proj2 (symbol_without_rule_rejected (str "C") Hn))
             (Config q5 [Z0; Rm; Lm])).
  - exact (proj1 (proj2 (proj2 (symbol_without_rule_rejected (str "C") Hn)))
             initial (Symbols [str "O"; str "C"; str "R"]) Hin).
Defined.

(** ** Symbols of one group *)

Lemma leads_share_rules :
  forallb (fun a => forallb (fun b => forallb (fun q => forallb (fun top =>
    match dict_get delta (q, a, top), dict_get delta (q, b, top) with
    | None, None => true
    | Some r, Some r' => rule_eqb r r'
    | _, _ => false
    end) [Z0; Rm; Lm; Fm; Vm]) [q0; q1; q2; q3; q4; q5; q6])
    sigma_leads) sigma_leads = true.
Proof. vm_compute. reflexivity. Qed.

Lemma plain_features_share_rules :
  forallb (fun a => forallb (fun b => forallb (fun q => forallb (fun top =>
    match dict_get delta (q, a, top), dict_get delta (q, b, top) with
    | None, None => true
    | Some r, Some r' => rule_eqb r r'
    | _, _ => false
    end) [Z0; Rm; Lm; Fm; Vm]) [q0; q1; q2; q3; q4; q5; q6])
    plain_features) plain_features = true.
Proof. vm_compute. reflexivity. Qed.

Lemma all_states q : In q [q0; q1; q2; q3; q4; q5; q6].
Proof. destruct q; simpl; auto 10. Qed.

Lemma all_stack_symbols top : In top [Z0; Rm; Lm; Fm; Vm].
Proof. destruct top; simpl; auto 10. Qed.

Lemma shared_rules_lookup (group : list pystr) a b q top :
  forallb (fun a => forallb (fun b => forallb (fun q => forallb (fun top =>
    match dict_get delta (q, a, top), dict_get delta (q, b, top) with
    | None, None => true
    | Some r, Some r' => rule_eqb r r'
    | _, _ => false
    end) [Z0; Rm; Lm; Fm; Vm]) [q0; q1; q2; q3; q4; q5; q6])
    group) group = true ->
  In a group -> In b group ->
  dict_get delta (q, a, top) = dict_get delta (q, b, top).
Proof.
  intros H Ha Hb.
  rewrite forallb_forall in H. specialize (H a Ha).
  rewrite forallb_forall in H. specialize (H b Hb).
  rewrite forallb_forall in H. specialize (H q (all_states q)).
  rewrite forallb_forall in H. specialize (H top (all_stack_symbols top)).
  destruct (dict_get delta (q, a, top)) as [r|],
           (dict_get delta (q, b, top)) as [r'|];
    try discriminate; [|reflexivity].
  apply rule_eqb_eq in H. now subst.
Qed.

Lemma interchangeable_step a b :
  interchangeable a b -> forall c, step c a = step c b.
Proof.
  intros H c. unfold step. destruct (stack c) as [|x st]; [reflexivity|].
  destruct H as [->|[[Ha Hb]|[Ha Hb]]]; [reflexivity| |].
  - now rewrite (shared_rules_lookup sigma_leads a b _ _
                   leads_share_rules Ha Hb).
  - now rewrite (shared_rules_lookup plain_features a b _ _
                   plain_features_share_rules Ha Hb).
Qed.

Lemma interchangeable_check a b :
  interchangeable a b -> PyStr.eqb CHECK a = PyStr.eqb CHECK b.
Proof.
  intros [->|[[Ha Hb]|[Ha Hb]]]; [reflexivity| |].
  - assert (forallb (fun x => negb (PyStr.eqb CHECK x)) sigma_leads = true)
      as H by (vm_compute; reflexivity).
    rewrite forallb_forall in H.
    pose proof (H a Ha) as E1. pose proof (H b Hb) as E2.
    apply negb_true_iff in E1, E2. congruence.
  - assert (forallb (fun x => negb (PyStr.eqb CHECK x)) plain_features = true)
      as H by (vm_compute; reflexivity).
    rewrite forallb_forall in H.
    pose proof (H a Ha) as E1. pose proof (H b Hb) as E2.
    apply negb_true_iff in E1, E2. congruence.
Qed.

Lemma interchangeable_loops l l' :
  Forall2 interchangeable l l' ->
  (forall c, accepts_loop c l = accepts_loop c l')
  /\ (forall c m, depth_loop c m l = depth_loop c m l')
  /\ PyStr.count CHECK l = PyStr.count CHECK l'.
Proof.
  induction 1 as [|a b l l' Hab Hl [IH1 [IH2 IH3]]].
  - repeat split.
  - split; [|split].
    + intros c. cbn [accepts_loop].
      rewrite (interchangeable_step a b Hab c).
      destruct (step c b) as [[] c1]; [apply IH1 | reflexivity].
    + intros c m. cbn [depth_loop].
      rewrite (interchangeable_step a b Hab c). apply IH2.
    + unfold PyStr.count in *. cbn [filter].
      rewrite (interchangeable_check a b Hab).
      destruct (PyStr.eqb CHECK b); cbn [List.length]; congruence.
Qed.

(** X2. Every lead has the same rules as every other lead, and the
    features 'P', 'Q', 'S', 'T' have the same rules as one another: a step
    gives the same result on two symbols of one group, so renaming leads
    and these features in a scanpath changes none of the three analyses. *)
Theorem symbols_of_a_group_interchangeable
  (c0 : config) (l l' : list pystr) :
  Forall2 interchangeable l l' ->
  accepts c0 (Symbols l) = accepts c0 (Symbols l')
  /\ get_max_stack_depth c0 (Symbols l) = get_max_stack_depth c0 (Symbols l')
  /\ compute_vcs c0 (Symbols l) = compute_vcs c0 (Symbols l').
Proof.
  intros H. destruct (interchangeable_loops l l' H) as [H1 [H2 H3]].
  assert (accepts c0 (Symbols l) = accepts c0 (Symbols l')) as Ea
    by apply H1.
  split; [exact Ea|]. split; [apply H2|].
  unfold compute_vcs. rewrite Ea. cbn [symbols_of]. now rewrite H3.
Qed.

Lemma symbols_of_a_group_interchangeable_witness :
  Forall2 interchangeable
    [str "O"; str "R"; str "II"; str "P"; str "V"; CHECK; CHECK; str "O"]
    [str "O"; str "R"; str "V3"; str "T"; str "V"; CHECK; CHECK; str "O"]
  /\ accepts initial
       (Symbols [str "O"; str "R"; str "II"; str "P"; str "V"; CHECK; CHECK;
                 str "O"])
     = accepts initial
         (Symbols [str "O"; str "R"; str "V3"; str "T"; str "V"; CHECK; CHECK;
                   str "O"]).
Proof.
  assert (Forall2 interchangeable
    [str "O"; str "R"; str "II"; str "P"; str "V"; CHECK; CHECK; str "O"]
    [str "O"; str "R"; str "V3"; str "T"; str "V"; CHECK; CHECK; str "O"])
    as H.
  { constructor; [left; reflexivity|].
    constructor; [left; reflexivity|].
    constructor; [right; left; split; vm_compute; auto 20|].
    constructor; [right; right; split; vm_compute; auto 20|].
    repeat (constructor; [left; reflexivity|]). constructor. }
  split; [exact H|].
  exact (proj1 (symbols_of_a_group_interchangeable initial _ _ H)).
Defined.

(** 'R' is a feature too, but not like the others: it is also the rhythm
    symbol, with rules of its own in q1 and q2. *)
Example rhythm_symbol_differs :
  In (str "R") sigma_features
  /\ step (Config q1 [Z0]) (str "R") = (true, Config q2 [Z0; Rm])
  /\ step (Config q1 [Z0]) (str "P") = (false, Config q1 [Z0]).
Proof. repeat split; vm_compute; auto 10. Qed.

(** ** How a step changes the stack length and the phase *)

Lemma allowed_rank q top q' a :
  In (q', a) (allowed q top) ->
  (rank q <= rank q' <= rank q + 1)%nat
  /\ (List.length a <= 2)%nat
  /\ (a = [] -> q = q5 /\ q' = q5)
  /\ (List.length a = 2%nat -> q <> q5).
Proof.
  destruct q, top; cbn [allowed In]; intros H;
    repeat (destruct H as [[= <- <-]|H]); try contradiction;
    cbn [rank List.length]; repeat split; try lia; try discriminate;
    try reflexivity.
Qed.

Lemma popping_rules_read_check :
  forallb (fun e => match replacement e with
                    | [] => PyStr.eqb (input_symbol e) CHECK
                    | _ => true
                    end) delta = true.
Proof. vm_compute. reflexivity. Qed.

Lemma step_length c symbol :
  (List.length (stack (snd (step c symbol)))
   <= List.length (stack c) + 1)%nat
  /\ (List.length (stack c)
      <= List.length (stack (snd (step c symbol))) + 1)%nat.
Proof.
  destruct (step_result c symbol) as [E|[c' E]]; rewrite E; cbn [snd];
    [lia|].
  destruct (step_true_rule _ _ _ E) as [below [top [q [a [Est [_ [Ha ->]]]]]]].
  destruct (allowed_rank _ _ _ _ Ha) as [_ [Hlen _]].
  cbn [stack]. rewrite Est, !length_app, length_rev. cbn [List.length]. lia.
Qed.

(** X3. A step changes the length of the stack by at most one. The stack
    gets shorter only when '✓' is read in the verification state q5, and
    it gets longer only outside q5. *)
Theorem step_changes_length_by_one (c : config) (symbol : pystr) :
  let c' := snd (step c symbol) in
  (List.length (stack c') <= List.length (stack c) + 1)%nat
  /\ (List.length (stack c) <= List.length (stack c') + 1)%nat
  /\ ((List.length (stack c') < List.length (stack c))%nat ->
        symbol = CHECK /\ current_state c = q5 /\ current_state c' = q5)
  /\ ((List.length (stack c) < List.length (stack c'))%nat ->
        current_state c <> q5 /\ symbol <> CHECK).
Proof.
  cbv zeta. destruct (step_length c symbol) as [H1 H2].
  split; [exact H1|]. split; [exact H2|].
  destruct (step_result c symbol) as [E|[c' E]]; rewrite E; cbn [snd];
    [split; lia|].
  destruct (step_true_rule _ _ _ E) as [below [top [q [a [Est [Hin [Ha ->]]]]]]].
  destruct (allowed_rank _ _ _ _ Ha) as [_ [Hlen [Hnil Htwo]]].
  pose proof (delta_In_forallb _ _ popping_rules_read_check Hin) as Hc.
  cbn [replacement input_symbol snd fst] in Hc.
  cbn [stack current_state]. rewrite Est, !length_app, length_rev.
  cbn [List.length]. split.
  - intros Hlt. destruct a as [|x a]; [|cbn [List.length] in Hlt; lia].
    apply pystr_eqb_eq in Hc. destruct (Hnil eq_refl) as [-> ->]. auto.
  - intros Hlt.
    assert (List.length a = 2%nat) as E2 by lia.
    split; [now apply Htwo|].
    intros ->. destruct a as [|x [|y [|z a]]]; try discriminate.
    assert (forallb (fun e => negb (PyStr.eqb (input_symbol e) CHECK)
                              || (List.length (replacement e) <=? 1)%nat)
              delta = true) as Hall by (vm_compute; reflexivity).
    pose proof (delta_In_forallb _ _ Hall Hin) as Hk.
    vm_compute in Hk. discriminate.
Qed.

Lemma step_changes_length_by_one_witness :
  (List.length (stack (snd (step (Config q5 [Z0; Rm; Lm; Vm]) CHECK)))
   < List.length (stack (Config q5 [Z0; Rm; Lm; Vm])))%nat
  /\ CHECK = CHECK
  /\ current_state (Config q5 [Z0; Rm; Lm; Vm]) = q5
  /\ current_state (snd (step (Config q5 [Z0; Rm; Lm; Vm]) CHECK)) = q5.
Proof.
  assert (List.length (stack (snd (step (Config q5 [Z0; Rm; Lm; Vm]) CHECK)))
          < List.length (stack (Config q5 [Z0; Rm; Lm; Vm])))%nat as H
    by (vm_compute; lia).
  split; [exact H|].
  exact (proj1 (proj2 (proj2
           (step_changes_length_by_one (Config q5 [Z0; Rm; Lm; Vm]) CHECK)))
           H).
Defined.

(** X4. The phase of the state (q0, q1, q2, examination q3/q4, q5, q6)
    never goes back along a run, whether steps fail or not: in particular
    once verification has begun the engine stays in q5 or q6, and a
    successful step advances by at most one phase. *)
Theorem phase_never_goes_back (c : config) (l : list pystr) :
  (rank (current_state c) <= rank (current_state (steps c l)))%nat
  /\ (verifying (current_state c) = true ->
        verifying (current_state (steps c l)) = true)
  /\ (forall symbol,
        (rank (current_state (snd (step c symbol)))
         <= rank (current_state c) + 1)%nat).
Proof.
  assert (rank (current_state c) <= rank (current_state (steps c l)))%nat
    as Hr.
  { apply (steps_invariant
             (fun c' => (rank (current_state c)
                         <= rank (current_state c'))%nat)); [|lia].
    intros c1 s c2 H1 E.
    destruct (step_true_rule _ _ _ E) as [below [top [q [a [_ [_ [Ha ->]]]]]]].
    destruct (allowed_rank _ _ _ _ Ha) as [H _]. cbn [current_state]. lia. }
  split; [exact Hr|]. split.
  - destruct (current_state c), (current_state (steps c l));
      cbn [rank verifying] in *; try reflexivity; try discriminate; lia.
  - intros symbol.
    destruct (step_result c symbol) as [E|[c' E]]; rewrite E; cbn [snd];
      [lia|].
    destruct (step_true_rule _ _ _ E) as [below [top [q [a [_ [_ [Ha ->]]]]]]].
    destruct (allowed_rank _ _ _ _ Ha) as [H _]. cbn [current_state]. lia.
Qed.

Lemma phase_never_goes_back_witness :
  verifying (current_state (Config q5 [Z0; Rm; Lm; Vm])) = true
  /\ verifying
       (current_state
          (steps (Config q5 [Z0; Rm; Lm; Vm])
             [str "II"; str "O"; CHECK; str "R"; str "P"; CHECK; str "O"]))
     = true.
Proof.
  assert (verifying (current_state (Config q5 [Z0; Rm; Lm; Vm])) = true)
    as H by reflexivity.
  split; [exact H|].
  exact (proj1 (proj2 (phase_never_goes_back (Config q5 [Z0; Rm; Lm; Vm])
           [str "II"; str "O"; CHECK; str "R"; str "P"; CHECK; str "O"])) H).
Defined.

(** ** Bounds on the maximum depth *)

Lemma depth_loop_bound l : forall c m,
  fst (depth_loop c m l)
  <= Z.max m (get_stack_depth c + Z.of_nat (List.length l)).
Proof.
  induction l as [|s l IH]; intros c m; cbn [depth_loop fst List.length].
  - lia.
  - specialize (IH (snd (step c s))
                   (Z.max m (get_stack_depth (snd (step c s))))).
    destruct (step_length c s) as [H _]. unfold get_stack_depth in *. lia.
Qed.

Lemma first_step_keeps_initial_stack symbol :
  stack (snd (step initial symbol)) = [Z0].
Proof.
  destruct (step_result initial symbol) as [E|[c' E]]; rewrite E; cbn [snd];
    [reflexivity|].
  destruct (step_true_rule _ _ _ E) as [below [top [q [a [Est [_ [Ha ->]]]]]]].
  cbn [stack current_state initial] in Est, Ha.
  destruct below as [|x below].
  - injection Est as <-. cbn [allowed In] in Ha.
    destruct Ha as [[= <- <-]|[]]. reflexivity.
  - destruct below; discriminate.
Qed.

(** X5. The maximum stack depth of a scanpath of n symbols is at most
    n - 1 (and 0 when n = 0): the first symbol cannot raise the depth and
    each later one raises it by at most one. *)
Theorem max_stack_depth_bounded (c0 : config) (sp : scanpath) :
  fst (get_max_stack_depth c0 sp)
  <= Z.max 0 (Z.of_nat (List.length (symbols_of sp)) - 1).
Proof.
  unfold get_max_stack_depth.
  change (reset c0) with initial.
  destruct (symbols_of sp) as [|s l]; [cbn; lia|].
  cbn [depth_loop].
  pose proof (depth_loop_bound l (snd (step initial s))
                (Z.max 0 (get_stack_depth (snd (step initial s))))) as H.
  unfold get_stack_depth in *.
  rewrite (first_step_keeps_initial_stack s) in *.
  cbn [List.length] in *. lia.
Qed.

(** The bound is reached: five symbols, depth four. *)
Example max_stack_depth_bound_reached :
  fst (get_max_stack_depth initial (Text (str "O R II P V"))) = 4.
Proof. vm_compute. reflexivity. Qed.

(** ** Acceptance without the stack test *)

(** X6. The test ['Z0' in self.stack] of [accepts] never decides: Z0 is
    always in the stack, so a scanpath is accepted exactly when every step
    succeeds and the state reached is q6. *)
Theorem accepts_iff_run_reaches_q6 (c0 : config) (sp : scanpath) :
  fst (accepts c0 sp)
  = match replay initial (symbols_of sp) with
    | Some c => State_eqb (current_state c) q6
    | None => false
    end.
Proof.
  unfold accepts. change (reset c0) with initial.
  destruct (replay initial (symbols_of sp)) as [c|] eqn:Er.
  - rewrite (accepts_loop_replayed _ _ _ Er). cbn [fst].
    assert (existsb (StackSym_eqb Z0) (stack c) = true) as ->.
    { apply existsb_Z0_In. rewrite <- (replay_steps _ _ _ Er).
      destruct (steps_keep_bottom (symbols_of sp) initial initial_bottomed)
        as [above ->]. now left. }
    unfold F. cbn [existsb]. now rewrite orb_false_r, andb_true_r.
  - destruct (replay_stops _ _ Er) as [pre [x [post [c' [-> [Hr Hf]]]]]].
    now rewrite (accepts_loop_stops _ _ _ post _ Hr Hf).
Qed.

(** ** The stack that goes with each state *)

Lemma split_at_top (A : Type) (below below' : list A) (top top' : A) :
  below ++ [top] = below' ++ [top'] -> below = below' /\ top = top'.
Proof. apply app_inj_tail. Qed.

Lemma step_keeps_shape c symbol c' :
  shape c -> step c symbol = (true, c') -> shape c'.
Proof.
  intros Hsh E.
  destruct (step_true_rule _ _ _ E) as [below [top [q [a [Est [_ [Ha ->]]]]]]].
  destruct c as [qc st]. unfold shape in *.
  cbn [current_state stack] in *. destruct qc.
  - (* q0 *)
    subst st. destruct (split_at_top _ below [] top Z0 (eq_sym Est)) as [-> ->].
    cbn [allowed In] in Ha. destruct Ha as [[= <- <-]|[]]. reflexivity.
  - (* q1 *)
    subst st. destruct (split_at_top _ below [] top Z0 (eq_sym Est)) as [-> ->].
    cbn [allowed In] in Ha. destruct Ha as [[= <- <-]|[[= <- <-]|[]]];
      reflexivity.
  - (* q2 *)
    subst st.
    destruct (split_at_top _ below [Z0] top Rm (eq_sym Est)) as [-> ->].
    cbn [allowed In] in Ha. destruct Ha as [[= <- <-]|[[= <- <-]|[]]].
    + reflexivity.
    + exists []. split; [reflexivity | intros []].
  - (* q3 *)
    destruct Hsh as [mid [Est' Hmid]]. subst st.
    destruct (split_at_top _ below (Z0 :: Rm :: mid) top Lm (eq_sym Est))
      as [-> ->].
    cbn [allowed In] in Ha.
    destruct Ha as [[= <- <-]|[[= <- <-]|[[= <- <-]|[]]]].
    + exists mid. split; [reflexivity | assumption].
    + exists (mid ++ [Lm]). split.
      * cbn [rev app]. now rewrite <- app_assoc.
      * rewrite in_app_iff. intros [H|[H|[]]]; [auto | discriminate].
    + exists (mid ++ [Lm; Vm]). split; [reflexivity|].
      rewrite in_app_iff. intros [H|[H|[H|[]]]]; [auto | | ]; discriminate.
  - (* q4 *)
    destruct Hsh as [mid [Est' Hmid]]. subst st.
    destruct (split_at_top _ below (Z0 :: Rm :: mid) top Fm (eq_sym Est))
      as [-> ->].
    cbn [allowed In] in Ha.
    destruct Ha as [[= <- <-]|[[= <- <-]|[[= <- <-]|[]]]].
    + exists mid. split; [reflexivity | assumption].
    + exists (mid ++ [Rm]). split.
      * cbn [rev app]. now rewrite <- app_assoc.
      * rewrite in_app_iff. intros [H|[H|[]]]; [auto | discriminate].
    + exists (mid ++ [Fm; Vm]). split; [reflexivity|].
      rewrite in_app_iff. intros [H|[H|[H|[]]]]; [auto | | ]; discriminate.
  - (* q5 *)
    destruct Hsh as [rest [Est' Hrest]]. subst st.
    destruct rest as [|y rest].
    + destruct (split_at_top _ below [Z0] top Rm (eq_sym Est)) as [-> ->].
      cbn [allowed In] in Ha. destruct Ha as [[= <- <-]|[[= <- <-]|[]]].
      * exists []. split; [reflexivity | intros []].
      * now exists [].
    + assert (y :: rest <> []) as Hne by discriminate.
      destruct (exists_last Hne) as [rest' [x Er]]. rewrite Er in *.
      destruct (split_at_top _ below (Z0 :: Rm :: rest') top x (eq_sym Est))
        as [-> ->].
      assert (~ In Z0 rest') as Hrest'
        by (intros H; apply Hrest; apply in_app_iff; now left).
      assert (x <> Z0) as Hx
        by (intros ->; apply Hrest; apply in_app_iff; right; now left).
      destruct x; [contradiction| | | |]; cbn [allowed In] in Ha;
        repeat (destruct Ha as [[= <- <-]|Ha]); try contradiction;
        cbn [rev app];
        try (exists (Rm :: rest'); reflexivity);
        try (exists rest'; split; [now rewrite app_nil_r | assumption]);
        (eexists; split; [reflexivity | assumption]).
  - (* q6 *)
    destruct top; contradiction.
Qed.

Lemma initial_shape : shape initial.
Proof. reflexivity. Qed.

Lemma steps_shape l : shape (steps initial l).
Proof.
  apply (steps_invariant shape); [|exact initial_shape].
  intros c s c' H E. exact (step_keeps_shape c s c' H E).
Qed.

(** X7. In a run from the reset configuration the state fixes the shape
    of the stack: [Z0] in q0 and q1, [Z0, Rm] in q2, Z0 and Rm below
    everything else from q3 to q5 with Lm on top in q3 and Fm on top in
    q4, and no further Z0 above the bottom before q6. So Z0 is never the
    top in q5 and the rule for 'O' in q5 on Z0 is never taken. *)
Theorem state_fixes_stack_shape (c0 : config) (l : list pystr) :
  let c := steps (reset c0) l in
  shape c
  /\ (current_state c = q3 -> last (stack c) Z0 = Lm)
  /\ (current_state c = q4 -> last (stack c) Z0 = Fm)
  /\ (current_state c = q5 ->
        last (stack c) Z0 <> Z0 /\ (2 <= List.length (stack c))%nat)
  /\ In ((q5, str "O", Z0), (q6, [Z0])) delta.
Proof.
  cbv zeta. change (reset c0) with initial.
  pose proof (steps_shape l) as Hsh.
  split; [exact Hsh|]. unfold shape in Hsh.
  split; [|split; [|split]].
  - intros Hq. rewrite Hq in Hsh. destruct Hsh as [mid [-> _]].
    change (Z0 :: Rm :: mid ++ [Lm]) with ((Z0 :: Rm :: mid) ++ [Lm]).
    apply last_last.
  - intros Hq. rewrite Hq in Hsh. destruct Hsh as [mid [-> _]].
    change (Z0 :: Rm :: mid ++ [Fm]) with ((Z0 :: Rm :: mid) ++ [Fm]).
    apply last_last.
  - intros Hq. rewrite Hq in Hsh. destruct Hsh as [rest [-> Hrest]].
    split; [|cbn [List.length]; lia].
    destruct rest as [|y rest]; [discriminate|].
    assert (y :: rest <> []) as Hne by discriminate.
    destruct (exists_last Hne) as [rest' [x Er]]. rewrite Er in *.
    change (Z0 :: Rm :: rest' ++ [x]) with ((Z0 :: Rm :: rest') ++ [x]).
    rewrite last_last. intros ->. apply Hrest. apply in_app_iff.
    right. now left.
  - apply dict_get_In. vm_compute. reflexivity.
Qed.

Lemma state_fixes_stack_shape_witness :
  current_state
    (steps (reset initial)
       [str "O"; str "R"; str "II"; str "V"; CHECK; CHECK; CHECK]) = q5
  /\ last (stack (steps (reset initial)
                    [str "O"; str "R"; str "II"; str "V"; CHECK; CHECK;
                     CHECK])) Z0 <> Z0.
Proof.
  assert (current_state
            (steps (reset initial)
               [str "O"; str "R"; str "II"; str "V"; CHECK; CHECK; CHECK])
          = q5) as H by (vm_compute; reflexivity).
  split; [exact H|].
  exact (proj1 (proj1 (proj2 (proj2 (proj2
           (state_fixes_stack_shape initial
              [str "O"; str "R"; str "II"; str "V"; CHECK; CHECK; CHECK]))))
           H)).
Defined.

(** X8. When a scanpath is accepted the final stack has at least two
    elements, Z0 at the bottom and Z0 on top: it is never the one-element
    stack [Z0] that the docstring of [accepts] names as the acceptance
    condition. *)
Theorem accepted_stack_keeps_remnants (c0 : config) (sp : scanpath) :
  fst (accepts c0 sp) = true ->
  current_state (snd (accepts c0 sp)) = q6
  /\ (exists mid, stack (snd (accepts c0 sp)) = Z0 :: mid ++ [Z0])
  /\ last (stack (snd (accepts c0 sp))) Vm = Z0
  /\ stack (snd (accepts c0 sp)) <> [Z0]
  /\ (2 <= List.length (stack (snd (accepts c0 sp))))%nat.
Proof.
  unfold accepts. change (reset c0) with initial. intros Ha.
  destruct (accepts_loop_true _ _ Ha) as [c [Hr [Hq _]]].
  rewrite (accepts_loop_replayed _ _ _ Hr). cbn [snd].
  pose proof (steps_shape (symbols_of sp)) as Hsh.
  rewrite (replay_steps _ _ _ Hr) in Hsh. unfold shape in Hsh.
  rewrite Hq in Hsh. destruct Hsh as [mid E].
  split; [exact Hq|]. split; [now exists mid|]. rewrite E.
  split; [|split].
  - change (Z0 :: mid ++ [Z0]) with ((Z0 :: mid) ++ [Z0]). apply last_last.
  - destruct mid; discriminate.
  - cbn [List.length]. rewrite length_app. cbn [List.length]. lia.
Qed.

Lemma accepted_stack_keeps_remnants_witness :
  fst (accepts initial (Text tested_expert_pattern)) = true
  /\ stack (snd (accepts initial (Text tested_expert_pattern))) <> [Z0].
Proof.
  assert (fst (accepts initial (Text tested_expert_pattern)) = true) as H
    by (vm_compute; reflexivity).
  split; [exact H|].
  exact (proj1 (proj2 (proj2 (proj2
           (accepted_stack_keeps_remnants initial
              (Text tested_expert_pattern) H))))).
Defined.

(** ** Depth and verification *)

Lemma last_two (A : Type) (l : list A) (x y d : A) :
  last (l ++ [x; y]) d = y.
Proof.
  change [x; y] with ([x] ++ [y]). rewrite app_assoc. apply last_last.
Qed.

(** The step that begins verification leaves at least four symbols on the
    stack, the verification marker on top. *)
Lemma entering_verification c symbol c' :
  shape c -> step c symbol = (true, c') ->
  verifying (current_state c) = false ->
  verifying (current_state c') = true ->
  (4 <= List.length (stack c'))%nat /\ last (stack c') Z0 = Vm.
Proof.
  intros Hsh E Hc Hc'.
  destruct (step_true_rule _ _ _ E) as [below [top [q [a [Est [_ [Ha ->]]]]]]].
  destruct c as [qc st]. unfold shape in Hsh.
  cbn [current_state stack] in *.
  destruct qc; try discriminate.
  - destruct top; cbn [allowed In] in Ha;
      repeat (destruct Ha as [[= <- <-]|Ha]); try contradiction;
      discriminate.
  - destruct top; cbn [allowed In] in Ha;
      repeat (destruct Ha as [[= <- <-]|Ha]); try contradiction;
      discriminate.
  - destruct top; cbn [allowed In] in Ha;
      repeat (destruct Ha as [[= <- <-]|Ha]); try contradiction;
      discriminate.
  - destruct Hsh as [mid [-> _]].
    destruct (split_at_top _ below (Z0 :: Rm :: mid) top Lm (eq_sym Est))
      as [-> ->].
    cbn [allowed In] in Ha.
    repeat (destruct Ha as [[= <- <-]|Ha]); try contradiction;
      try discriminate.
    cbn [rev app]. split.
    + cbn [List.length]. rewrite length_app. cbn [List.length]. lia.
    + apply (last_two _ (Z0 :: Rm :: mid)).
  - destruct Hsh as [mid [-> _]].
    destruct (split_at_top _ below (Z0 :: Rm :: mid) top Fm (eq_sym Est))
      as [-> ->].
    cbn [allowed In] in Ha.
    repeat (destruct Ha as [[= <- <-]|Ha]); try contradiction;
      try discriminate.
    cbn [rev app]. split.
    + cbn [List.length]. rewrite length_app. cbn [List.length]. lia.
    + apply (last_two _ (Z0 :: Rm :: mid)).
Qed.

Lemma depth_loop_verifying l : forall c m,
  shape c ->
  (verifying (current_state c) = true -> 3 <= m) ->
  verifying (current_state (snd (depth_loop c m l))) = true ->
  3 <= fst (depth_loop c m l).
Proof.
  induction l as [|s l IH]; intros c m Hsh Hm; cbn [depth_loop fst snd].
  - exact Hm.
  - apply IH.
    + destruct (step_result c s) as [E|[c' E]]; rewrite E; cbn [snd];
        [assumption|]. exact (step_keeps_shape c s c' Hsh E).
    + destruct (step_result c s) as [E|[c' E]]; rewrite E; cbn [snd].
      * intros H. specialize (Hm H). lia.
      * intros H. destruct (verifying (current_state c)) eqn:Hv.
        -- specialize (Hm eq_refl). lia.
        -- destruct (entering_verification c s c' Hsh E Hv H) as [H4 _].
           unfold get_stack_depth. lia.
Qed.

(** X9. When the run of [get_max_stack_depth] ends in the verification
    state or the accepting state, the maximum depth is at least 3; so
    every accepted scanpath has a maximum depth of at least 3. *)
Theorem verification_needs_depth_three (c0 : config) (sp : scanpath) :
  (verifying (current_state (snd (get_max_stack_depth c0 sp))) = true ->
     3 <= fst (get_max_stack_depth c0 sp))
  /\ (fst (accepts c0 sp) = true -> 3 <= fst (get_max_stack_depth c0 sp)).
Proof.
  assert (verifying (current_state (snd (get_max_stack_depth c0 sp))) = true
          -> 3 <= fst (get_max_stack_depth c0 sp)) as H.
  { unfold get_max_stack_depth. change (reset c0) with initial.
    apply depth_loop_verifying; [exact initial_shape | discriminate]. }
  split; [exact H|].
  intros Ha. apply H. unfold accepts in Ha.
  change (reset c0) with initial in Ha.
  destruct (accepts_loop_true _ _ Ha) as [c [Hr [Hq _]]].
  unfold get_max_stack_depth. change (reset c0) with initial.
  rewrite depth_loop_observed. cbn [snd].
  now rewrite (replay_steps _ _ _ Hr), Hq.
Qed.

Lemma verification_needs_depth_three_witness :
  fst (accepts initial (Text expert_pattern)) = true
  /\ 3 <= fst (get_max_stack_depth initial (Text expert_pattern)).
Proof.
  assert (fst (accepts initial (Text expert_pattern)) = true) as H
    by (vm_compute; reflexivity).
  split; [exact H|].
  exact (proj2 (verification_needs_depth_three initial (Text expert_pattern))
           H).
Defined.

(** ** Maximum depth along a scanpath *)

Lemma depth_loop_skips_no_rule l : forall c m,
  get_stack_depth c <= m ->
  depth_loop c m (List.filter has_rule l) = depth_loop c m l.
Proof.
  induction l as [|s l IH]; intros c m Hm; cbn [filter depth_loop];
    [reflexivity|].
  destruct (has_rule s) eqn:Hs.
  - cbn [depth_loop]. apply IH. lia.
  - rewrite (step_without_rule s Hs c). cbn [snd].
    replace (Z.max m (get_stack_depth c)) with m by lia. now apply IH.
Qed.

(** X10. [get_max_stack_depth] passes over the symbols the table has no
    rule for: leaving them out of the scanpath changes neither the depth
    returned nor the configuration the engine is left in. *)
Theorem max_stack_depth_skips_unknown_symbols
  (c0 : config) (l : list pystr) :
  get_max_stack_depth c0 (Symbols (List.filter has_rule l))
  = get_max_stack_depth c0 (Symbols l).
Proof.
  unfold get_max_stack_depth. cbn [symbols_of].
  apply depth_loop_skips_no_rule. vm_compute. discriminate.
Qed.

Lemma depth_loop_app l1 : forall l2 c m,
  depth_loop c m (l1 ++ l2)
  = depth_loop (snd (depth_loop c m l1)) (fst (depth_loop c m l1)) l2.
Proof.
  induction l1 as [|s l1 IH]; intros l2 c m; cbn [app depth_loop fst snd].
  - reflexivity.
  - apply IH.
Qed.

Lemma depth_loop_ge_start l : forall c m, m <= fst (depth_loop c m l).
Proof.
  intros c m. rewrite depth_loop_observed. cbn [fst]. apply max_of_ge_start.
Qed.

(** X11. The maximum depth of a scanpath is the loop of
    [get_max_stack_depth] continued from where a prefix left the engine
    and the running maximum, so extending a scanpath never lowers its
    maximum depth. *)
Theorem max_stack_depth_of_extension
  (c0 : config) (l l' : list pystr) :
  get_max_stack_depth c0 (Symbols (l ++ l'))
  = depth_loop (snd (get_max_stack_depth c0 (Symbols l)))
               (fst (get_max_stack_depth c0 (Symbols l))) l'
  /\ fst (get_max_stack_depth c0 (Symbols l))
     <= fst (get_max_stack_depth c0 (Symbols (l ++ l'))).
Proof.
  unfold get_max_stack_depth. cbn [symbols_of].
  rewrite depth_loop_app. split; [reflexivity|]. apply depth_loop_ge_start.
Qed.

(** ** What an accepted scanpath contains *)

(** Where every rule that leads into a set of states reads a symbol of one
    kind, a run that enters the set has read such a symbol. *)
Lemma gate_symbol (inside : State -> bool) (opens : pystr -> bool) :
  forallb (fun e => inside (source_state e)
                    || negb (inside (next_state e))
                    || opens (input_symbol e)) delta = true ->
  forall l c c',
    replay c l = Some c' ->
    inside (current_state c) = false ->
    inside (current_state c') = true ->
    exists symbol, In symbol l /\ opens symbol = true.
Proof.
  intros Hall. induction l as [|s l IH]; intros c c'; cbn [replay].
  - intros [= ->] H1 H2. congruence.
  - destruct (step c s) as [[] c1] eqn:E; [|discriminate].
    intros Hr Hout Hin.
    destruct (inside (current_state c1)) eqn:H1.
    + exists s. split; [now left|].
      destruct (step_true_rule _ _ _ E)
        as [below [top [q [a [_ [He [_ ->]]]]]]].
      pose proof (delta_In_forallb _ _ Hall He) as Ht.
      cbn [source_state next_state input_symbol fst snd current_state]
        in Ht, H1.
      rewrite Hout, H1 in Ht. exact Ht.
    + destruct (IH c1 c' Hr H1 Hin) as [x [Hx Ho]].
      exists x. split; [now right | assumption].
Qed.

(** Without a '✓' read, verification cannot get past its marker. *)
Lemma no_check_keeps_marker l : forall c c',
  replay c l = Some c' ->
  ~ In CHECK l ->
  current_state c <> q6 ->
  (current_state c = q5 -> last (stack c) Z0 = Vm) ->
  current_state c' <> q6
  /\ (current_state c' = q5 -> last (stack c') Z0 = Vm).
Proof.
  induction l as [|s l IH]; intros c c'; cbn [replay].
  - intros [= ->]. auto.
  - destruct (step c s) as [[] c1] eqn:E; [|discriminate].
    intros Hr Hno H6 H5.
    assert (s <> CHECK) as Hs by (intros ->; apply Hno; now left).
    assert (~ In CHECK l) as Hno' by (intros H; apply Hno; now right).
    destruct (step_true_rule _ _ _ E)
      as [below [top [q [a [Est [He [Ha ->]]]]]]].
    pose proof (delta_In_forallb _ _ popping_rules_read_check He) as Hp.
    cbn [replacement input_symbol fst snd] in Hp.
    assert (a <> []) as Hne.
    { intros ->. apply pystr_eqb_eq in Hp. contradiction. }
    assert (last (stack c) Z0 = top) as Htop
      by (rewrite Est; apply last_last).
    refine (IH _ c' Hr Hno' _ _); cbn [current_state stack].
    + destruct (current_state c), top; cbn [allowed In] in Ha;
        repeat (destruct Ha as [[= <- <-]|Ha]); try contradiction;
        try discriminate; try congruence;
        specialize (H5 eq_refl); congruence.
    + destruct (current_state c), top; cbn [allowed In] in Ha;
        repeat (destruct Ha as [[= <- <-]|Ha]); try contradiction;
        try discriminate; try congruence; intros _; cbn [rev app];
        try apply last_two; try apply last_last;
        specialize (H5 eq_refl); congruence.
Qed.

Lemma rules_from_q0_read_open :
  forallb (fun e => negb (State_eqb (source_state e) q0)
                    || PyStr.eqb (input_symbol e) (str "O")) delta = true.
Proof. vm_compute. reflexivity. Qed.

Lemma rules_into_q6_read_open :
  forallb (fun e => negb (State_eqb (next_state e) q6)
                    || PyStr.eqb (input_symbol e) (str "O")) delta = true.
Proof. vm_compute. reflexivity. Qed.

Lemma in_middle (x first last_one : pystr) middle :
  In x (first :: middle ++ [last_one]) ->
  x <> first -> x <> last_one -> In x middle.
Proof.
  intros [->|H] H1 H2; [congruence|].
  apply in_app_iff in H. destruct H as [H|[->|[]]]; [assumption|congruence].
Qed.

(** The symbols of a run from the reset configuration to q6. *)
Lemma run_to_q6_symbols l c :
  replay initial l = Some c -> current_state c = q6 ->
  exists middle lead,
    l = str "O" :: middle ++ [str "O"]
    /\ In (str "R") middle
    /\ In lead sigma_leads /\ In lead middle
    /\ In (str "V") middle
    /\ In CHECK middle
    /\ (6 <= List.length l)%nat.
Proof.
  intros Hr Hq.
  (* the symbols that open the phases *)
  destruct (gate_symbol (fun q => (2 <=? rank q)%nat)
              (fun s => PyStr.eqb s (str "R"))
              ltac:(vm_compute; reflexivity) l initial c Hr eq_refl
              ltac:(rewrite Hq; reflexivity)) as [r [Hr_in Er]].
  apply pystr_eqb_eq in Er. subst r.
  destruct (gate_symbol (fun q => (3 <=? rank q)%nat)
              (fun s => existsb (PyStr.eqb s) sigma_leads)
              ltac:(vm_compute; reflexivity) l initial c Hr eq_refl
              ltac:(rewrite Hq; reflexivity)) as [lead [Hlead_in El]].
  apply existsb_exists in El. destruct El as [lead' [Hlead El]].
  apply pystr_eqb_eq in El. subst lead'.
  destruct (gate_symbol verifying (fun s => PyStr.eqb s (str "V"))
              ltac:(vm_compute; reflexivity) l initial c Hr eq_refl
              ltac:(rewrite Hq; reflexivity)) as [v [Hv_in Ev]].
  apply pystr_eqb_eq in Ev. subst v.
  (* a confirmation *)
  assert (In CHECK l) as Hc_in.
  { destruct (in_dec (list_eq_dec N.eq_dec) CHECK l) as [H|H]; [exact H|].
    destruct (no_check_keeps_marker l initial c Hr H) as [H6 _];
      [discriminate | discriminate | contradiction]. }
  (* the first symbol *)
  destruct l as [|s l]; [contradiction|].
  assert (s = str "O") as ->.
  { cbn [replay] in Hr. destruct (step initial s) as [[] c1] eqn:E;
      [|discriminate].
    destruct (step_true_rule _ _ _ E) as [below [top [q [a [_ [He _]]]]]].
    pose proof (delta_In_forallb _ _ rules_from_q0_read_open He) as Ht.
    cbn [source_state input_symbol fst snd current_state initial] in Ht.
    now apply pystr_eqb_eq in Ht. }
  (* the last symbol *)
  assert (l <> []) as Hne.
  { intros ->. destruct Hr_in as [H|[]]. vm_compute in H. discriminate. }
  destruct (exists_last Hne) as [middle [z ->]].
  assert (z = str "O") as ->.
  { change (str "O" :: middle ++ [z]) with ((str "O" :: middle) ++ [z]) in Hr.
    apply replay_app in Hr. destruct Hr as [c1 [_ Hz]].
    cbn [replay] in Hz. destruct (step c1 z) as [[] c2] eqn:E;
      [|discriminate].
    injection Hz as ->.
    destruct (step_true_rule _ _ _ E) as [below [top [q [a [_ [He [_ Ec]]]]]]].
    pose proof (delta_In_forallb _ _ rules_into_q6_read_open He) as Ht.
    cbn [next_state input_symbol fst snd] in Ht.
    rewrite Ec in Hq. cbn [current_state] in Hq. subst q.
    now apply pystr_eqb_eq in Ht. }
  assert (forallb (fun x => negb (PyStr.eqb x (str "O"))
                            && negb (PyStr.eqb x (str "R"))
                            && negb (PyStr.eqb x (str "V"))
                            && negb (PyStr.eqb x CHECK)) sigma_leads = true)
    as Hleads by (vm_compute; reflexivity).
  rewrite forallb_forall in Hleads. specialize (Hleads lead Hlead).
  rewrite !andb_true_iff, !negb_true_iff in Hleads.
  destruct Hleads as [[[LO LR] LV] LC].
  assert (lead <> str "O") as HLO
    by (intros ->; vm_compute in LO; discriminate).
  assert (lead <> str "R") as HLR
    by (intros ->; vm_compute in LR; discriminate).
  assert (lead <> str "V") as HLV
    by (intros ->; vm_compute in LV; discriminate).
  assert (lead <> CHECK) as HLC
    by (intros ->; vm_compute in LC; discriminate).
  assert (In (str "R") middle) as MR
    by (apply (in_middle _ _ _ _ Hr_in); discriminate).
  assert (In lead middle) as ML
    by (apply (in_middle _ _ _ _ Hlead_in); assumption).
  assert (In (str "V") middle) as MV
    by (apply (in_middle _ _ _ _ Hv_in); discriminate).
  assert (In CHECK middle) as MC
    by (apply (in_middle _ _ _ _ Hc_in); discriminate).
  exists middle, lead. repeat (split; [assumption || reflexivity|]).
  assert (NoDup [str "R"; lead; str "V"; CHECK]) as Hnd.
  { repeat constructor; cbn [In]; intros H;
      repeat (destruct H as [H|H]); try discriminate; try contradiction;
      congruence. }
  assert (incl [str "R"; lead; str "V"; CHECK] middle) as Hincl.
  { intros x Hx. cbn [In] in Hx.
    destruct Hx as [<-|[<-|[<-|[<-|[]]]]]; assumption. }
  pose proof (NoDup_incl_length Hnd Hincl) as Hlen.
  cbn [List.length] in *. rewrite length_app. cbn [List.length]. lia.
Qed.

(** X12. An accepted scanpath begins with 'O' and ends with 'O', and
    between the two it contains 'R', a lead, 'V' and at least one '✓'; so
    it has at least six symbols. *)
Theorem accepted_scanpath_symbols (c0 : config) (sp : scanpath) :
  fst (accepts c0 sp) = true ->
  exists middle lead,
    symbols_of sp = str "O" :: middle ++ [str "O"]
    /\ In (str "R") middle
    /\ In lead sigma_leads /\ In lead middle
    /\ In (str "V") middle
    /\ In CHECK middle
    /\ (6 <= List.length (symbols_of sp))%nat.
Proof.
  unfold accepts. change (reset c0) with initial. intros Ha.
  destruct (accepts_loop_true _ _ Ha) as [c [Hr [Hq _]]].
  exact (run_to_q6_symbols _ c Hr Hq).
Qed.

Lemma accepted_scanpath_symbols_witness :
  fst (accepts initial (Text (str "O R II V " ++ CHECK ++ str " O"))) = true
  /\ exists middle lead,
       symbols_of (Text (str "O R II V " ++ CHECK ++ str " O"))
       = str "O" :: middle ++ [str "O"]
       /\ In (str "R") middle
       /\ In lead sigma_leads /\ In lead middle
       /\ In (str "V") middle
       /\ In CHECK middle
       /\ (6 <= List.length
                  (symbols_of (Text (str "O R II V " ++ CHECK ++ str " O"))))%nat.
Proof.
  assert (fst (accepts initial (Text (str "O R II V " ++ CHECK ++ str " O")))
          = true) as H by (vm_compute; reflexivity).
  split; [exact H|].
  exact (accepted_scanpath_symbols initial
           (Text (str "O R II V " ++ CHECK ++ str " O")) H).
Defined.

(** ** Whitespace in a text scanpath *)

Lemma split_from_blank s : forall cur,
  forallb is_space s = true ->
  split_from cur s = match cur with [] => [] | _ => [rev cur] end.
Proof.
  induction s as [|c s IH]; intros cur Hs; cbn [split_from]; [reflexivity|].
  cbn [forallb] in Hs. apply andb_true_iff in Hs. destruct Hs as [-> Hs].
  destruct cur; rewrite (IH [] Hs); reflexivity.
Qed.

(** X13. In a text scanpath a whitespace character only separates: the
    symbols of [a + w + b] are those of [a] followed by those of [b], so
    whitespace at either end and repeated whitespace change nothing, and a
    text of whitespace alone has no symbols. *)
Theorem whitespace_only_separates (a b : pystr) (w : N) :
  is_space w = true ->
  symbols_of (Text (a ++ w :: b)) = symbols_of (Text a) ++ symbols_of (Text b)
  /\ symbols_of (Text (w :: a)) = symbols_of (Text a)
  /\ symbols_of (Text (a ++ [w])) = symbols_of (Text a)
  /\ symbols_of (Text (a ++ w :: w :: b)) = symbols_of (Text (a ++ w :: b))
  /\ (forall s, forallb is_space s = true -> symbols_of (Text s) = [])
  /\ (forall c0, accepts c0 (Text (w :: a ++ [w])) = accepts c0 (Text a)).
Proof.
  intros Hw. cbn [symbols_of]. unfold split.
  assert (forall x y, split_from [] (x ++ w :: y)
                      = split_from [] x ++ split_from [] y) as Hsep
    by (intros x y; now apply split_from_separator).
  assert (split_from [] (w :: a) = split_from [] a) as Hlead
    by (cbn [split_from]; now rewrite Hw).
  assert (split_from [] (a ++ [w]) = split_from [] a) as Htrail
    by (rewrite Hsep; cbn [split_from]; now rewrite app_nil_r).
  split; [apply Hsep|]. split; [exact Hlead|]. split; [exact Htrail|].
  split.
  { rewrite !Hsep. f_equal. cbn [split_from]. now rewrite Hw. }
  split.
  { intros s Hs. now rewrite (split_from_blank s [] Hs). }
  intros c0. unfold accepts. cbn [symbols_of]. unfold split.
  change (w :: a ++ [w]) with ((w :: a) ++ [w]).
  rewrite Hsep. cbn [split_from]. now rewrite Hw, app_nil_r.
Qed.

Lemma whitespace_only_separates_witness :
  is_space 9%N = true
  /\ symbols_of (Text (str "O R" ++ 9%N :: str "II P"))
     = symbols_of (Text (str "O R")) ++ symbols_of (Text (str "II P")).
Proof.
  assert (is_space 9%N = true) as H by reflexivity.
  split; [exact H|].
  exact (proj1 (whitespace_only_separates (str "O R") (str "II P") 9%N H)).
Defined.

(** ** The full score *)

Lemma count_le_length x l : (PyStr.count x l <= List.length l)%nat.
Proof. unfold PyStr.count. apply filter_length_le. Qed.

(** X14. The score is 1 only for scanpaths of at least six symbols: an
    accepted scanpath has six or more, and the fallback reaches 1 only
    with six '✓'. Shorter scanpaths score at most 5/6. *)
Theorem full_score_needs_six_symbols (c0 : config) (sp : scanpath) :
  ((fst (compute_vcs c0 sp) == 1)%Q ->
     (6 <= List.length (symbols_of sp))%nat)
  /\ ((List.length (symbols_of sp) < 6)%nat ->
        (fst (compute_vcs c0 sp) <= 5 # 6)%Q).
Proof.
  assert (fst (accepts c0 sp) = true ->
          (6 <= List.length (symbols_of sp))%nat) as Hacc.
  { unfold accepts. change (reset c0) with initial. intros Ha.
    destruct (accepts_loop_true _ _ Ha) as [c [Hr [Hq _]]].
    destruct (run_to_q6_symbols _ c Hr Hq)
      as [middle [lead [_ [_ [_ [_ [_ [_ H]]]]]]]].
    exact H. }
  pose proof (count_le_length CHECK (symbols_of sp)) as Hcnt.
  rewrite compute_vcs_cases.
  destruct (fst (accepts c0 sp)) eqn:Ea.
  - specialize (Hacc eq_refl). split; [auto | lia].
  - split.
    + intros H1. apply capped_full in H1. lia.
    + intros Hlt.
      apply Qle_trans with (sixth (PyStr.count CHECK (symbols_of sp)));
        [apply Q.le_min_l|].
      change (5 # 6)%Q with (sixth 5). apply sixth_mono. lia.
Qed.

Lemma full_score_needs_six_symbols_witness :
  (List.length (symbols_of (Text novice_pattern)) < 6)%nat
  /\ (fst (compute_vcs initial (Text novice_pattern)) <= 5 # 6)%Q.
Proof.
  assert (List.length (symbols_of (Text novice_pattern)) < 6)%nat as H
    by (vm_compute; lia).
  split; [exact H|].
  exact (proj2 (full_score_needs_six_symbols initial (Text novice_pattern)) H).
Defined.

(** ** Depth without bound *)

Lemma round_from_feature_state below :
  step (Config q4 (below ++ [Fm])) (str "II")
  = (true, Config q3 (below ++ [Rm; Lm]))
  /\ step (Config q3 ((below ++ [Rm]) ++ [Lm])) (str "P")
     = (true, Config q4 ((below ++ [Rm]) ++ [Lm; Fm])).
Proof.
  split.
  - apply (step_on_top (Config q4 (below ++ [Fm])) below Fm (str "II")
             q3 [Lm; Rm]); [reflexivity | vm_compute; reflexivity].
  - apply (step_on_top (Config q3 ((below ++ [Rm]) ++ [Lm])) (below ++ [Rm])
             Lm (str "P") q4 [Fm; Lm]); [reflexivity | vm_compute; reflexivity].
Qed.

Lemma depth_loop_rounds n : forall below,
  depth_loop (Config q4 (below ++ [Fm])) (Z.of_nat (List.length below))
    (lead_feature_rounds n)
  = (Z.of_nat (List.length below) + 2 * Z.of_nat n,
     Config q4 (below ++ round_markers n ++ [Fm])).
Proof.
  induction n as [|n IH]; intros below.
  - cbn [lead_feature_rounds depth_loop round_markers app].
    f_equal. lia.
  - cbn [lead_feature_rounds depth_loop].
    destruct (round_from_feature_state below) as [E1 E2].
    rewrite E1. cbn [snd].
    replace (below ++ [Rm; Lm]) with ((below ++ [Rm]) ++ [Lm])
      by (now rewrite <- app_assoc).
    rewrite E2. cbn [snd]. unfold get_stack_depth. cbn [stack].
    replace ((below ++ [Rm]) ++ [Lm; Fm])
      with ((below ++ [Rm; Lm]) ++ [Fm])
      by (rewrite <- !app_assoc; reflexivity).
    rewrite !length_app. cbn [List.length].
    specialize (IH (below ++ [Rm; Lm])).
    rewrite length_app in IH. cbn [List.length] in IH.
    match goal with
    | |- depth_loop _ ?m _ = _ =>
        replace m with (Z.of_nat (List.length below + 2)) by lia
    end.
    rewrite IH. f_equal; [lia|].
    cbn [round_markers]. now rewrite <- !app_assoc.
Qed.

(** X15. Going from a feature to a further lead and a feature of it puts
    two more markers on the stack each time: after "O R II P" every
    further round "II P" raises the depth by two, so the maximum depth of
    "O R II P (II P)^n" is 3 + 2n and no depth bounds all scanpaths. *)
Theorem depth_grows_with_every_round (c0 : config) (n : nat) :
  get_max_stack_depth c0
    (Symbols (str "O" :: str "R" :: str "II" :: str "P"
              :: lead_feature_rounds n))
  = (3 + 2 * Z.of_nat n,
     Config q4 ([Z0; Rm; Lm] ++ round_markers n ++ [Fm])).
Proof.
  unfold get_max_stack_depth. cbn [symbols_of].
  change (str "O" :: str "R" :: str "II" :: str "P" :: lead_feature_rounds n)
    with ([str "O"; str "R"; str "II"; str "P"] ++ lead_feature_rounds n).
  rewrite depth_loop_app.
  assert (depth_loop (reset c0) 0 [str "O"; str "R"; str "II"; str "P"]
          = (3, Config q4 ([Z0; Rm; Lm] ++ [Fm]))) as E
    by (vm_compute; reflexivity).
  rewrite E. cbn [fst snd].
  exact (depth_loop_rounds n [Z0; Rm; Lm]).
Qed.
